(** * RiMayTik Messenger: a shallow embedding of the messaging core

    The development follows the Python sources:
    - [client/encryption.py]: [RiMayTikEncryptionEngine] (envelope codec,
      session derivation, ratchet) and [RiMayTikKeyManager] (trust store);
    - [shared/protocol.py]: [RiMayTikMessage];
    - [server/database.py]: [RiMayTikDatabase] (account store, sessions);
    - [server/main.py]: [RiMayTikServer] (connection registry and relay).

    Conventions.
    - A Python [str] is a Rocq [string] holding its UTF-8 encoding, so
      [s.encode()] is the list of its bytes and [len(s)] counts code points
      ([py_len]).
    - Python [bytes] are [list byte].
    - [time.time()] and SQL [CURRENT_TIMESTAMP] are read from an explicit
      clock value (a [Z], seconds of UTC); the server's [datetime.now()] is
      the naive local time, which is away from it by the offset of the
      time zone and carries microseconds; [os.urandom], [uuid.uuid4] and
      key generation are read from explicit entropy arguments.
    - [await writer.drain()] raises when the peer of the transport is
      gone; which transports have lost their peer is read from outside, as
      the clock is.
    - A Python exception is a value of [exn]; code that can raise lives in
      the [Result] monad.
    - Functions of the [cryptography], [hashlib], [base64], [bcrypt] and
      [json] packages are not part of the repository: they are parameters. *)

From stdpp Require Import gmap strings list fin_maps pretty.
From Stdlib Require Import ZArith Strings.Byte Strings.Ascii.

#[local] Open Scope Z_scope.

(* ===================================================================== *)
(** ** Python values and exceptions *)
(* ===================================================================== *)

Module Py.

Definition bytes := list byte.

#[global] Instance byte_eq_dec : EqDecision byte := Byte.byte_eq_dec.

(** [s.encode()] (UTF-8 is the default and the representation). *)
Definition encode (s : string) : bytes := String.list_byte_of_string s.

(** A UTF-8 continuation byte has the form [10xxxxxx]. *)
Definition is_continuation (a : ascii) : bool :=
  match a with
  | Ascii _ _ _ _ _ _ b6 b7 => b7 && negb b6
  end.

(** [len(s)] for a [str]: the number of code points. *)
Fixpoint py_len (s : string) : nat :=
  match s with
  | EmptyString => 0%nat
  | String a rest =>
      ((if is_continuation a then 0 else 1) + py_len rest)%nat
  end.

(** Truth value of an optional string ([None] and [""] are falsy). *)
Definition truthy (o : option string) : bool :=
  match o with
  | None => false
  | Some s => negb (String.eqb s "")
  end.

(** [a or b] where [a] may be [None] or empty. *)
Definition or_else (o : option string) (d : string) : string :=
  match o with
  | Some s => if String.eqb s "" then d else s
  | None => d
  end.

(** The exceptions that the modelled code can raise.  Exceptions coming out
    of a library call carry the name of the step that failed;
    [ValueErrorFrom p e] is [ValueError(f"{p}{e}")] raised from an
    [except Exception as e] handler. *)
Inductive exn : Type :=
| KeyError (key : string)
| TypeError (what : string)
| AttributeError (obj attr : string)
| IntegrityError (constraint : string)
| LibraryError (step : string)
| ValueError (msg : string)
| ValueErrorFrom (prefix : string) (cause : exn)
| ConnectionResetError.

Inductive Result (A : Type) : Type :=
| Ok (a : A)
| Raise (e : exn).
Arguments Ok {A} a.
Arguments Raise {A} e.

Definition bind {A B} (m : Result A) (f : A -> Result B) : Result B :=
  match m with
  | Ok a => f a
  | Raise e => Raise e
  end.

(** [d[k]] on a dict. *)
Definition getitem {V} (d : gmap string V) (k : string) : Result V :=
  match d !! k with
  | Some v => Ok v
  | None => Raise (KeyError k)
  end.

(** [d[k]] where the lookup has already been made. *)
Definition subscript {V} (o : option V) (k : string) : Result V :=
  match o with
  | Some v => Ok v
  | None => Raise (KeyError k)
  end.

(** A library call that either yields a value or raises. *)
Definition lib {A} (step : string) (o : option A) : Result A :=
  match o with
  | Some a => Ok a
  | None => Raise (LibraryError step)
  end.

(** Methods that mutate [self] and may raise: the state reached when the
    exception is raised is kept, as in Python. *)
Definition M (S A : Type) : Type := S -> S * Result A.

Definition ret {S A} (a : A) : M S A := fun s => (s, Ok a).

Definition mbind_M {S A B} (m : M S A) (f : A -> M S B) : M S B :=
  fun s =>
    match m s with
    | (s', Ok a) => f a s'
    | (s', Raise e) => (s', Raise e)
    end.

Definition get {S} : M S S := fun s => (s, Ok s).
Definition modify {S} (f : S -> S) : M S unit := fun s => (f s, Ok tt).
Definition raise {S A} (e : exn) : M S A := fun s => (s, Raise e).
Definition liftR {S A} (r : Result A) : M S A := fun s => (s, r).

(** [try: m  except Exception as e: h e] *)
Definition try_except {S A} (m : M S A) (h : exn -> M S A) : M S A :=
  fun s =>
    match m s with
    | (s', Raise e) => h e s'
    | (s', Ok a) => (s', Ok a)
    end.

(** Run a method of a component held in a field of the state. *)
Definition zoom {S T A} (proj : S -> T) (inj : S -> T -> S) (m : M T A)
  : M S A :=
  fun s => let '(t', r) := m (proj s) in (inj s t', r).

End Py.
Import Py.

#[global] Instance Result_ret : MRet Result := @Ok.
#[global] Instance Result_bind : MBind Result := λ A B f m, bind m f.
#[global] Instance M_ret {S} : MRet (M S) := @ret S.
#[global] Instance M_bind {S} : MBind (M S) := λ A B f m, mbind_M m f.

(* ===================================================================== *)
(** ** client/encryption.py: RiMayTikKeyManager (the trust store) *)
(* ===================================================================== *)

Module KeyManager.

(** One value of [self.trusted_keys]. *)
Record TrustedKey := mkTrustedKey {
  key : string;
  fingerprint : string;
  added_at : Z;
  verified : bool
}.

(** The object: three dicts, of which only [trusted_keys] is ever used. *)
Record RiMayTikKeyManager := mkKeyManager {
  trusted_keys : gmap string TrustedKey;
  key_verifications : gmap string bool;
  key_expiry : gmap string Z
}.

(** [__init__]. *)
Definition init : RiMayTikKeyManager :=
  {| trusted_keys := ∅; key_verifications := ∅; key_expiry := ∅ |}.

Definition set_trusted_keys (km : RiMayTikKeyManager)
    (t : gmap string TrustedKey) : RiMayTikKeyManager :=
  {| trusted_keys := t;
     key_verifications := key_verifications km;
     key_expiry := key_expiry km |}.

Definition set_verified (r : TrustedKey) (b : bool) : TrustedKey :=
  {| key := key r; fingerprint := fingerprint r;
     added_at := added_at r; verified := b |}.

(** [f'{b:02x}'] *)
Definition hex_digit (n : N) : ascii :=
  if (n <? 10)%N then ascii_of_N (48 + n) else ascii_of_N (87 + n).

Definition hex2 (b : byte) : string :=
  let n := Byte.to_N b in
  String (hex_digit (n / 16)) (String (hex_digit (n mod 16)) EmptyString).

(** [':'.join(parts)] *)
Fixpoint join_colon (parts : list string) : string :=
  match parts with
  | [] => ""
  | [p] => p
  | p :: rest => p +:+ ":" +:+ join_colon rest
  end.

Section WithHash.

(** [hashlib.sha256(data).digest()] *)
Variable sha256 : bytes -> bytes.

(** [calculate_fingerprint]: first 16 bytes of SHA-256, colon-separated
    lowercase hex. *)
Definition calculate_fingerprint (public_key_pem : string) : string :=
  let key_hash := sha256 (encode public_key_pem) in
  join_colon (map hex2 (firstn 16 key_hash)).

(** [add_trusted_key(username, public_key, fingerprint=None)];
    [now] is the value of [time.time()]. *)
Definition add_trusted_key (km : RiMayTikKeyManager) (now : Z)
    (username public_key : string) (fp : option string)
  : RiMayTikKeyManager :=
  set_trusted_keys km
    (<[username :=
         {| key := public_key;
            fingerprint :=
              or_else fp (calculate_fingerprint public_key);
            added_at := now;
            verified := false |}]> (trusted_keys km)).

(** [verify_key_fingerprint(username, fingerprint)].  Dict subscripts go
    through [getitem], the operation that can raise [KeyError]. *)
Definition verify_key_fingerprint (km : RiMayTikKeyManager)
    (username fp : string) : Result (RiMayTikKeyManager * bool) :=
  if bool_decide (is_Some (trusted_keys km !! username)) then
    r ← getitem (trusted_keys km) username;
    let stored_fingerprint := fingerprint r in
    if bool_decide (fp = stored_fingerprint) then
      r' ← getitem (trusted_keys km) username;
      Ok (set_trusted_keys km
            (<[username := set_verified r' true]> (trusted_keys km)),
          true)
    else Ok (km, false)
  else Ok (km, false).

(** The result of [get_security_status]; [key_age_days] is kept as the
    age in seconds (the source divides it by 86400 as a float). *)
Inductive SecurityStatus :=
| NoKey
| HasKey (is_verified : bool) (fp : string) (age_seconds : Z)
         (level : string).

Definition get_security_status (km : RiMayTikKeyManager) (now : Z)
    (username : string) : Result SecurityStatus :=
  if bool_decide (is_Some (trusted_keys km !! username)) then
    key_info ← getitem (trusted_keys km) username;
    Ok (HasKey (verified key_info) (fingerprint key_info)
               (now - added_at key_info)
               (if verified key_info then "high" else "medium"))
  else Ok NoKey.

(** The operations a client can run on a key manager. *)
Inductive Op :=
| OpAdd (now : Z) (username public_key : string) (fp : option string)
| OpVerify (username fp : string)
| OpStatus (now : Z) (username : string).

(** The state left by one operation (a raised exception leaves the
    state as it was). *)
Definition exec (km : RiMayTikKeyManager) (op : Op)
  : RiMayTikKeyManager :=
  match op with
  | OpAdd now u k fp => add_trusted_key km now u k fp
  | OpVerify u fp =>
      match verify_key_fingerprint km u fp with
      | Ok (km', _) => km'
      | Raise _ => km
      end
  | OpStatus _ _ => km
  end.

Definition run (km : RiMayTikKeyManager) (ops : list Op)
  : RiMayTikKeyManager :=
  fold_left exec ops km.

(** The [verified] flag of a user as a client reads it. *)
Definition is_verified (km : RiMayTikKeyManager) (u : string) : bool :=
  match trusted_keys km !! u with
  | Some r => verified r
  | None => false
  end.

Definition stored_fingerprint_of (km : RiMayTikKeyManager) (u : string)
  : option string :=
  fingerprint <$> trusted_keys km !! u.

Definition adds_key_for (u : string) (op : Op) : bool :=
  match op with
  | OpAdd _ u' _ _ => bool_decide (u' = u)
  | _ => false
  end.

End WithHash.

End KeyManager.

(* ===================================================================== *)
(** ** client/encryption.py: RiMayTikEncryptionEngine *)
(* ===================================================================== *)

Module Engine.

Inductive Curve := SECP256R1 | SECP384R1 | SECP521R1.
Inductive HashAlg := SHA256 | SHA512.

(** One row of [self.security_params]. *)
Record SecurityParams := mkParams {
  rsa_key_size : Z;
  ec_curve : Curve;
  kdf_iterations : Z;
  key_rotation_hours : Z
}.

(** [_setup_security_level]: the fixed table. *)
Definition security_params : gmap Z SecurityParams :=
  <[1 := mkParams 2048 SECP256R1 100000 24]>
    (<[2 := mkParams 3072 SECP384R1 200000 12]>
       (<[3 := mkParams 4096 SECP521R1 500000 6]> ∅)).

(** The functions of the [cryptography], [hashlib], [base64] and [json]
    packages that the engine calls.  A call that raises yields [None]
    (or [false] for a signature check). *)
Class Crypto := {
  ECPrivateKey : Type;
  RSAPrivateKey : Type;
  PublicKey : Type;
  ec_public_key : ECPrivateKey -> PublicKey;
  rsa_public_key : RSAPrivateKey -> PublicKey;
  (** [key.public_bytes(PEM, SubjectPublicKeyInfo).decode('utf-8')] *)
  public_bytes_pem : PublicKey -> string;
  load_pem_public_key : bytes -> option PublicKey;
  (** [private.exchange(ec.ECDH(), peer)] *)
  ecdh_exchange : ECPrivateKey -> PublicKey -> option bytes;
  (** [HKDF(algorithm, length, salt, info).derive(ikm)] *)
  hkdf_derive : HashAlg -> nat -> option bytes -> bytes -> bytes -> bytes;
  (** AES-GCM under [key], [iv], with additional data: encryption yields
      the ciphertext and the tag kept in [encryptor.tag]. *)
  aes_gcm_encrypt : bytes -> bytes -> bytes -> bytes -> option (bytes * bytes);
  (** [Cipher(AES(key), GCM(iv, tag))], additional data, ciphertext. *)
  aes_gcm_decrypt : bytes -> bytes -> bytes -> bytes -> bytes -> option bytes;
  (** [hashlib.blake2b(data, key=key, digest_size=n).digest()] *)
  blake2b : bytes -> bytes -> nat -> bytes;
  (** RSA-PSS with MGF1(SHA-256) and maximal salt, over SHA-256. *)
  rsa_sign_pss : RSAPrivateKey -> bytes -> bytes;
  rsa_verify_pss : PublicKey -> bytes -> bytes -> bool;
  (** [base64.b64encode(b).decode()] and [base64.b64decode(s)] *)
  b64encode : bytes -> string;
  b64decode : string -> option bytes;
  (** [b.decode('utf-8')] *)
  utf8_decode : bytes -> option string;
  (** [json.dumps({"system": s, "timestamp": t, "security_level": l})] *)
  json_dumps_metadata : string -> Z -> Z -> string
}.

(** What one call draws from the operating system: generated keys,
    [os.urandom(n)], [uuid.uuid4().hex] and the two readings of
    [time.time()] in [encrypt_message]. *)
Record Entropy `{Crypto} := mkEntropy {
  gen_rsa : Z -> RSAPrivateKey;
  gen_ec : Curve -> ECPrivateKey;
  urandom : nat -> bytes;
  uuid4_hex : string;
  time_metadata : Z;
  time_envelope : Z
}.

(** A value of [self.session_keys]. *)
Record SessionState := mkSession {
  chain_key_send : bytes;
  chain_key_receive : bytes;
  message_number : Z
}.

(** The dict returned by [encrypt_message], which is also the argument of
    [decrypt_message]: the model takes an envelope that has all its
    fields (a missing key would raise [KeyError] inside the same [try]). *)
Record Envelope := mkEnvelope {
  ciphertext : string;
  iv : string;
  salt : string;
  ephemeral_public_key : string;
  hmac : string;
  metadata : string;
  signature : string;
  algorithm : string;
  message_id : string;
  timestamp : Z
}.

(** The calls to the authenticity and cipher primitives, in the order in
    which the engine makes them. *)
Inductive Call :=
| CallMac (key data : bytes)
| CallSign (data : bytes)
| CallAeadEncrypt (key nonce aad plaintext : bytes)
| CallMacCompare (given expected : bytes)
| CallVerify (data : bytes) (ok : bool)
| CallAeadDecrypt (key nonce tag aad ct : bytes).

Section WithCrypto.

Context `{Crypto}.

(** The engine object; a key pair dict is the pair (private, public). *)
Record RiMayTikEncryptionEngine := mkEngine {
  security_level : Z;
  identity_keys : option (RSAPrivateKey * PublicKey);
  ephemeral_keys : option (ECPrivateKey * PublicKey);
  session_keys : gmap string SessionState;
  key_store : gmap string bytes
}.

(** The engine together with the log of primitive calls. *)
Record World := mkWorld {
  self : RiMayTikEncryptionEngine;
  calls : list Call
}.

(** [__init__(security_level=2)] *)
Definition init (level : Z) : RiMayTikEncryptionEngine :=
  {| security_level := level; identity_keys := None;
     ephemeral_keys := None; session_keys := ∅; key_store := ∅ |}.

Definition set_identity_keys (k : option (RSAPrivateKey * PublicKey))
    (e : RiMayTikEncryptionEngine) : RiMayTikEncryptionEngine :=
  {| security_level := security_level e; identity_keys := k;
     ephemeral_keys := ephemeral_keys e;
     session_keys := session_keys e; key_store := key_store e |}.

Definition set_ephemeral_keys (k : option (ECPrivateKey * PublicKey))
    (e : RiMayTikEncryptionEngine) : RiMayTikEncryptionEngine :=
  {| security_level := security_level e;
     identity_keys := identity_keys e; ephemeral_keys := k;
     session_keys := session_keys e; key_store := key_store e |}.

Definition set_session_keys (k : gmap string SessionState)
    (e : RiMayTikEncryptionEngine) : RiMayTikEncryptionEngine :=
  {| security_level := security_level e;
     identity_keys := identity_keys e;
     ephemeral_keys := ephemeral_keys e;
     session_keys := k; key_store := key_store e |}.

Definition modify_self
    (f : RiMayTikEncryptionEngine -> RiMayTikEncryptionEngine)
  : M World unit :=
  modify (fun w => {| self := f (self w); calls := calls w |}).

Definition log (c : Call) : M World unit :=
  modify (fun w => {| self := self w; calls := calls w ++ [c] |}).

Definition get_self : M World RiMayTikEncryptionEngine :=
  w ← get; mret (self w).

Definition lookup_params : M World SecurityParams :=
  e ← get_self;
  liftR (subscript (security_params !! security_level e)
                   "security_level").

(** [generate_identity_keypair] *)
Definition generate_identity_keypair (ent : Entropy) : M World unit :=
  params ← lookup_params;
  let priv := gen_rsa ent (rsa_key_size params) in
  modify_self (set_identity_keys (Some (priv, rsa_public_key priv))).

(** [generate_ephemeral_keypair] *)
Definition generate_ephemeral_keypair (ent : Entropy) : M World unit :=
  params ← lookup_params;
  let priv := gen_ec ent (ec_curve params) in
  modify_self (set_ephemeral_keys (Some (priv, ec_public_key priv))).

(** [get_public_key_pem] *)
Definition get_public_key_pem (ent : Entropy) : M World string :=
  e ← get_self;
  _ ← match identity_keys e with
      | Some _ => mret tt
      | None => generate_identity_keypair ent
      end;
  e ← get_self;
  kp ← liftR (subscript (identity_keys e) "public");
  mret (public_bytes_pem kp.2).

(** [get_ephemeral_public_key_pem] *)
Definition get_ephemeral_public_key_pem (ent : Entropy)
  : M World string :=
  e ← get_self;
  _ ← match ephemeral_keys e with
      | Some _ => mret tt
      | None => generate_ephemeral_keypair ent
      end;
  e ← get_self;
  kp ← liftR (subscript (ephemeral_keys e) "public");
  mret (public_bytes_pem kp.2).

(** [self.ephemeral_keys['private']]: subscripting [None] is a
    [TypeError]. *)
Definition ephemeral_private : M World ECPrivateKey :=
  e ← get_self;
  match ephemeral_keys e with
  | Some kp => mret kp.1
  | None => raise (TypeError "'NoneType' object is not subscriptable")
  end.

Definition info_key_derivation : bytes := encode "rimaytik_key_derivation".
Definition info_message_encryption : bytes :=
  encode "rimaytik_message_encryption".
Definition info_ratchet : bytes := encode "rimaytik_ratchet".

(** [derive_shared_secret(peer_public_key_pem)]: ECDH, then HKDF-SHA256
    to 32 bytes. *)
Definition derive_shared_secret (peer_public_key_pem : string)
  : M World bytes :=
  try_except
    (peer_public_key ←
       liftR (lib "load_pem_public_key"
                  (load_pem_public_key (encode peer_public_key_pem)));
     priv ← ephemeral_private;
     shared_secret ←
       liftR (lib "exchange" (ecdh_exchange priv peer_public_key));
     mret (hkdf_derive SHA256 32 None info_key_derivation shared_secret))
    (fun e =>
       raise (ValueErrorFrom
                "RiMayTik: Ошибка вычисления общего секрета: " e)).

(** [sign_data(data)] *)
Definition sign_data (ent : Entropy) (data : bytes) : M World string :=
  e ← get_self;
  _ ← match identity_keys e with
      | Some _ => mret tt
      | None => generate_identity_keypair ent
      end;
  e ← get_self;
  kp ← liftR (subscript (identity_keys e) "private");
  _ ← log (CallSign data);
  mret (b64encode (rsa_sign_pss kp.1 data)).

(** [verify_signature(data, signature, public_key_pem)]: any exception
    inside gives [False]. *)
Definition check_signature (data : bytes) (signature : string)
    (public_key_pem : string) : bool :=
  match load_pem_public_key (encode public_key_pem) with
  | None => false
  | Some public_key =>
      match b64decode signature with
      | None => false
      | Some sig => rsa_verify_pss public_key sig data
      end
  end.

Definition verify_signature (data : bytes) (signature : string)
    (public_key_pem : string) : M World bool :=
  let ok := check_signature data signature public_key_pem in
  _ ← log (CallVerify data ok);
  mret ok.

(** [_ratchet_keys(user, new_shared_secret)] *)
Definition _ratchet_keys (user : string) (new_shared_secret : bytes)
  : M World unit :=
  e ← get_self;
  if negb (bool_decide (is_Some (session_keys e !! user))) then
    modify_self
      (set_session_keys
         (<[user := {| chain_key_send := new_shared_secret;
                       chain_key_receive := new_shared_secret;
                       message_number := 0 |}]> (session_keys e)))
  else
    st ← liftR (getitem (session_keys e) user);
    let new_keys :=
      hkdf_derive SHA256 64 None info_ratchet (chain_key_send st) in
    modify_self
      (set_session_keys
         (<[user := {| chain_key_send := take 32 new_keys;
                       chain_key_receive := drop 32 new_keys;
                       message_number := message_number st + 1 |}]>
            (session_keys e))).

(** [encrypt_message(message, recipient_public_key_pem)] *)
Definition encrypt_message (ent : Entropy) (message : string)
    (recipient_public_key_pem : string) : M World Envelope :=
  try_except
    (_ ← generate_ephemeral_keypair ent;
     shared_secret ← derive_shared_secret recipient_public_key_pem;
     let salt := urandom ent 16 in
     let key_material :=
       hkdf_derive SHA512 64 (Some salt) info_message_encryption
                   shared_secret in
     let encryption_key := take 32 key_material in
     let mac_key := drop 32 key_material in
     let iv := urandom ent 12 in
     e ← get_self;
     let metadata :=
       encode (json_dumps_metadata "RiMayTik" (time_metadata ent)
                                   (security_level e)) in
     _ ← log (CallAeadEncrypt encryption_key iv metadata
                              (encode message));
     '(ciphertext, _) ←
       liftR (lib "encryptor"
                  (aes_gcm_encrypt encryption_key iv metadata
                                   (encode message)));
     _ ← log (CallMac mac_key (ciphertext ++ iv ++ metadata));
     let hmac := blake2b (ciphertext ++ iv ++ metadata) mac_key 32 in
     signature ← sign_data ent (ciphertext ++ iv ++ hmac);
     eph_pem ← get_ephemeral_public_key_pem ent;
     mret {| ciphertext := b64encode ciphertext;
             iv := b64encode iv;
             salt := b64encode salt;
             ephemeral_public_key := eph_pem;
             hmac := b64encode hmac;
             metadata := b64encode metadata;
             signature := signature;
             algorithm := "RiMayTik-ECDH-AES256-GCM-BLAKE2b";
             message_id := "rimaytik_" +:+ uuid4_hex ent;
             timestamp := time_envelope ent |})
    (fun e => raise (ValueErrorFrom "RiMayTik: Ошибка шифрования: " e)).

(** [decrypt_message(encrypted_data, sender_public_key_pem)] *)
Definition decrypt_message (encrypted_data : Envelope)
    (sender_public_key_pem : string) : M World string :=
  try_except
    (sender_ephemeral_key ←
       liftR (lib "load_pem_public_key"
                  (load_pem_public_key
                     (encode (ephemeral_public_key encrypted_data))));
     priv ← ephemeral_private;
     shared_secret ←
       liftR (lib "exchange" (ecdh_exchange priv sender_ephemeral_key));
     salt ← liftR (lib "b64decode" (b64decode (salt encrypted_data)));
     let key_material :=
       hkdf_derive SHA512 64 (Some salt) info_message_encryption
                   shared_secret in
     let encryption_key := take 32 key_material in
     let mac_key := drop 32 key_material in
     ciphertext ←
       liftR (lib "b64decode" (b64decode (ciphertext encrypted_data)));
     iv ← liftR (lib "b64decode" (b64decode (iv encrypted_data)));
     hmac ← liftR (lib "b64decode" (b64decode (hmac encrypted_data)));
     metadata ←
       liftR (lib "b64decode" (b64decode (metadata encrypted_data)));
     _ ← log (CallMac mac_key (ciphertext ++ iv ++ metadata));
     let expected_hmac :=
       blake2b (ciphertext ++ iv ++ metadata) mac_key 32 in
     _ ← log (CallMacCompare hmac expected_hmac);
     if negb (bool_decide (hmac = expected_hmac)) then
       raise (ValueError "RiMayTik: Неверная проверка целостности")
     else
       ok ← verify_signature (ciphertext ++ iv ++ hmac)
                             (signature encrypted_data)
                             sender_public_key_pem;
       if negb ok then
         raise (ValueError "RiMayTik: Неверная цифровая подпись")
       else
         _ ← log (CallAeadDecrypt encryption_key iv hmac metadata
                                  ciphertext);
         plaintext ←
           liftR (lib "decryptor"
                      (aes_gcm_decrypt encryption_key iv hmac metadata
                                       ciphertext));
         _ ← _ratchet_keys sender_public_key_pem shared_secret;
         liftR (lib "decode" (utf8_decode plaintext)))
    (fun e =>
       raise (ValueErrorFrom "RiMayTik: Ошибка дешифрования: " e)).

(** The value that [_ratchet_keys] stores for a peer whose current
    state is [st] ([None]: no state yet). *)
Definition ratchet_state (st : option SessionState) (ss : bytes)
  : SessionState :=
  match st with
  | None =>
      {| chain_key_send := ss; chain_key_receive := ss;
         message_number := 0 |}
  | Some st =>
      let new_keys :=
        hkdf_derive SHA256 64 None info_ratchet (chain_key_send st) in
      {| chain_key_send := take 32 new_keys;
         chain_key_receive := drop 32 new_keys;
         message_number := message_number st + 1 |}
  end.

Definition add_calls (w : World) (l : list Call) : World :=
  {| self := self w; calls := calls w ++ l |}.

Definition with_self (w : World) (e : RiMayTikEncryptionEngine)
  : World :=
  {| self := e; calls := calls w |}.

(** The values that [decrypt_message] has in hand when it reaches its
    checks: the shared secret, the two derived keys and the decoded
    fields of the envelope. *)
Record Opened := mkOpened {
  o_shared_secret : bytes;
  o_encryption_key : bytes;
  o_mac_key : bytes;
  o_ciphertext : bytes;
  o_iv : bytes;
  o_hmac : bytes;
  o_metadata : bytes
}.

(** The steps of [decrypt_message] before the MAC check; [None] when
    one of them raises. *)
Definition open_envelope (e : RiMayTikEncryptionEngine)
    (encrypted_data : Envelope) : option Opened :=
  sender_ephemeral_key ←
    load_pem_public_key (encode (ephemeral_public_key encrypted_data));
  kp ← ephemeral_keys e;
  shared_secret ← ecdh_exchange kp.1 sender_ephemeral_key;
  salt ← b64decode (salt encrypted_data);
  let key_material :=
    hkdf_derive SHA512 64 (Some salt) info_message_encryption
                shared_secret in
  ciphertext ← b64decode (ciphertext encrypted_data);
  iv ← b64decode (iv encrypted_data);
  hmac ← b64decode (hmac encrypted_data);
  metadata ← b64decode (metadata encrypted_data);
  Some {| o_shared_secret := shared_secret;
          o_encryption_key := take 32 key_material;
          o_mac_key := drop 32 key_material;
          o_ciphertext := ciphertext; o_iv := iv; o_hmac := hmac;
          o_metadata := metadata |}.

(** The MAC that [decrypt_message] recomputes. *)
Definition expected_hmac (o : Opened) : bytes :=
  blake2b (o_ciphertext o ++ o_iv o ++ o_metadata o) (o_mac_key o) 32.

(** The calls of a decryption that runs to the end, in order. *)
Definition decrypt_calls (o : Opened) (sig_ok : bool) : list Call :=
  [CallMac (o_mac_key o) (o_ciphertext o ++ o_iv o ++ o_metadata o);
   CallMacCompare (o_hmac o) (expected_hmac o);
   CallVerify (o_ciphertext o ++ o_iv o ++ o_hmac o) sig_ok;
   CallAeadDecrypt (o_encryption_key o) (o_iv o) (o_hmac o)
                   (o_metadata o) (o_ciphertext o)].

(** Two facts about the libraries: a BLAKE2b digest requested with
    [digest_size=32] has 32 bytes, and AES-GCM accepts no tag longer than
    16 bytes. *)
Definition blake2b_digest_size : Prop :=
  ∀ dat key, length (blake2b dat key 32) = 32%nat.

Definition gcm_tag_at_most_16 : Prop :=
  ∀ key nonce tag aad ct,
    (16 < length tag)%nat → aes_gcm_decrypt key nonce tag aad ct = None.

Definition decrypt_error_prefix : string :=
  "RiMayTik: Ошибка дешифрования: ".

(** The error of the spec's taxonomy as the engine raises it. *)
Definition IntegrityFailure : exn :=
  ValueErrorFrom decrypt_error_prefix
    (ValueError "RiMayTik: Неверная проверка целостности").

Definition SignatureFailure : exn :=
  ValueErrorFrom decrypt_error_prefix
    (ValueError "RiMayTik: Неверная цифровая подпись").

End WithCrypto.

End Engine.

(* ===================================================================== *)
(** ** shared/protocol.py: RiMayTikMessage *)
(* ===================================================================== *)

Module Protocol.

Inductive RiMayTikMessageType :=
| RIMAYTIK_REGISTER | RIMAYTIK_LOGIN | RIMAYTIK_LOGOUT
| RIMAYTIK_KEY_EXCHANGE | RIMAYTIK_KEY_VERIFY
| RIMAYTIK_DIRECT_MESSAGE | RIMAYTIK_GROUP_MESSAGE
| RIMAYTIK_SYSTEM_MESSAGE
| RIMAYTIK_ONLINE_USERS | RIMAYTIK_USER_STATUS
| RIMAYTIK_CONTACT_REQUEST | RIMAYTIK_CONTACT_ACCEPT
| RIMAYTIK_FILE_TRANSFER_REQUEST | RIMAYTIK_FILE_TRANSFER_DATA
| RIMAYTIK_SECURITY_ALERT | RIMAYTIK_ENCRYPTION_INIT
| RIMAYTIK_ERROR | RIMAYTIK_SUCCESS.

(** The values carried in [data]: what [json.loads] yields and
    [json.dumps] accepts.  A dict keeps its keys in insertion order. *)
#[warnings="-register-all"]
Inductive json :=
| JNull
| JBool (b : bool)
| JNum (n : Z)
| JStr (s : string)
| JList (l : list json)
| JDict (l : list (string * json)).

(** Python truth value. *)
Definition truthy_json (j : json) : bool :=
  match j with
  | JNull => false
  | JBool b => b
  | JNum n => negb (n =? 0)
  | JStr s => negb (String.eqb s "")
  | JList l => match l with [] => false | _ => true end
  | JDict l => match l with [] => false | _ => true end
  end.

(** [d.get(k)] *)
Fixpoint dict_get (d : list (string * json)) (k : string) : option json :=
  match d with
  | [] => None
  | (k', v) :: rest => if String.eqb k' k then Some v else dict_get rest k
  end.

Definition of_opt_str (o : option string) : json :=
  match o with Some s => JStr s | None => JNull end.

Definition of_opt_num (o : option Z) : json :=
  match o with Some n => JNum n | None => JNull end.

(** The dataclass. *)
Record RiMayTikMessage := mkMessage {
  type : RiMayTikMessageType;
  data : list (string * json);
  sender : option string;
  receiver : option string;
  message_id : option string;
  timestamp : option Z;
  signature : option string
}.

Definition truthy_time (o : option Z) : bool :=
  match o with Some t => negb (t =? 0) | None => false end.

(** Construction followed by [__post_init__]: [uuid_hex] and [now] are
    the values of [uuid.uuid4().hex] and [time.time()]. *)
Definition RiMayTikMessage_new (uuid_hex : string) (now : Z)
    (ty : RiMayTikMessageType) (dat : list (string * json))
    (snd rcv mid : option string) (ts : option Z) (sig : option string)
  : RiMayTikMessage :=
  {| type := ty; data := dat; sender := snd; receiver := rcv;
     message_id :=
       if truthy mid then mid else Some ("rimaytik_" +:+ uuid_hex);
     timestamp := if truthy_time ts then ts else Some now;
     signature := sig |}.

End Protocol.

(* ===================================================================== *)
(** ** server/database.py: RiMayTikDatabase *)
(* ===================================================================== *)

Module Database.

(** A row of [rimaytik_users]. *)
Record UserRow := mkUser {
  u_id : Z;
  u_username : string;
  u_display_name : string;
  u_public_key : string;
  u_password_hash : string;
  u_last_login : option Z;
  u_last_seen : option Z;
  u_status : string;
  u_security_level : Z
}.

(** A row of [rimaytik_messages_meta]. *)
Record MetaRow := mkMeta {
  m_message_uuid : string;
  m_sender_id : Z;
  m_receiver_id : Z;
  m_conversation_hash : string;
  m_message_type : string
}.

(** A row of [rimaytik_security_sessions].  [created_at] is SQLite's
    [CURRENT_TIMESTAMP], whole seconds of UTC; [expires_at] is a Python
    [datetime], stored as the text of a local date and time and kept here
    as its count of microseconds. *)
Record SessionRow := mkSessionRow {
  s_user_id : Z;
  s_session_token : string;
  s_device_info : string;
  s_ip_address : string;
  s_created_at : Z;
  s_expires_at : Z;
  s_active : bool
}.

(** The tables, in insertion order, and the AUTOINCREMENT counter of the
    users table. *)
Record RiMayTikDatabase := mkDb {
  rimaytik_users : list UserRow;
  rimaytik_messages_meta : list MetaRow;
  rimaytik_security_sessions : list SessionRow;
  seq_users : Z
}.

(** [create_tables] on a fresh file. *)
Definition empty : RiMayTikDatabase :=
  {| rimaytik_users := []; rimaytik_messages_meta := [];
     rimaytik_security_sessions := []; seq_users := 0 |}.

(** Library functions used by the server side. *)
Class Libs := {
  (** [bcrypt.hashpw(password, salt).decode()]; [None] when it raises
      [ValueError], as bcrypt 5 does for a password of more than 72
      bytes *)
  bcrypt_hashpw : bytes -> bytes -> option string;
  (** [hashlib.sha256(b).hexdigest()] *)
  sha256_hexdigest : bytes -> string;
  (** [json.dumps(v)] *)
  json_dumps : Protocol.json -> string;
  (** [str(x)] for a float timestamp *)
  str_float : Z -> string;
  (** the engine's [ORDER BY display_name] *)
  order_by_display_name : list UserRow -> list UserRow
}.

Definition set_users (l : list UserRow) (seq : Z) (d : RiMayTikDatabase)
  : RiMayTikDatabase :=
  {| rimaytik_users := l;
     rimaytik_messages_meta := rimaytik_messages_meta d;
     rimaytik_security_sessions := rimaytik_security_sessions d;
     seq_users := seq |}.

Definition set_messages_meta (l : list MetaRow) (d : RiMayTikDatabase)
  : RiMayTikDatabase :=
  {| rimaytik_users := rimaytik_users d;
     rimaytik_messages_meta := l;
     rimaytik_security_sessions := rimaytik_security_sessions d;
     seq_users := seq_users d |}.

Definition set_sessions (l : list SessionRow) (d : RiMayTikDatabase)
  : RiMayTikDatabase :=
  {| rimaytik_users := rimaytik_users d;
     rimaytik_messages_meta := rimaytik_messages_meta d;
     rimaytik_security_sessions := l;
     seq_users := seq_users d |}.

Definition has_username (d : RiMayTikDatabase) (u : string) : bool :=
  existsb (fun r => String.eqb (u_username r) u) (rimaytik_users d).

Definition has_message_uuid (d : RiMayTikDatabase) (m : string) : bool :=
  existsb (fun r => String.eqb (m_message_uuid r) m)
          (rimaytik_messages_meta d).

Definition has_token (d : RiMayTikDatabase) (t : string) : bool :=
  existsb (fun r => String.eqb (s_session_token r) t)
          (rimaytik_security_sessions d).

(** The UNIQUE constraint on [session_token]. *)
Definition unique_tokens (d : RiMayTikDatabase) : Prop :=
  NoDup (map s_session_token (rimaytik_security_sessions d)).

(** [(SELECT id FROM rimaytik_users WHERE username = ?)] *)
Definition select_user_id (d : RiMayTikDatabase) (u : option string)
  : option Z :=
  match u with
  | None => None
  | Some name =>
      u_id <$> find (fun r => String.eqb (u_username r) name)
                    (rimaytik_users d)
  end.

Section WithLibs.

Context `{Libs}.

Import Protocol.

(** [register_rimaytik_user]: the password is hashed before the [try];
    then two INSERTs, each committed on its own; only
    [sqlite3.IntegrityError] is caught. *)
Definition register_rimaytik_user (gensalt : bytes) (username : string)
    (display_name : option string) (public_key password : string)
  : M RiMayTikDatabase (option Z) :=
  password_hash ←
    liftR (lib "bcrypt.hashpw" (bcrypt_hashpw (encode password) gensalt));
  try_except
    (d ← get;
     if has_username d username then
       raise (IntegrityError "rimaytik_users.username")
     else
       let user_id := seq_users d + 1 in
       _ ← modify
             (set_users
                (rimaytik_users d ++
                   [{| u_id := user_id; u_username := username;
                       u_display_name := or_else display_name username;
                       u_public_key := public_key;
                       u_password_hash := password_hash;
                       u_last_login := None; u_last_seen := None;
                       u_status := "online";
                       u_security_level := 2 |}])
                user_id);
       d ← get;
       let welcome := "welcome_" +:+ pretty user_id in
       if has_message_uuid d welcome then
         raise (IntegrityError "rimaytik_messages_meta.message_uuid")
       else
         _ ← modify
               (set_messages_meta
                  (rimaytik_messages_meta d ++
                     [{| m_message_uuid := welcome; m_sender_id := 0;
                         m_receiver_id := user_id;
                         m_conversation_hash :=
                           sha256_hexdigest (encode welcome);
                         m_message_type := "system" |}]));
         mret (Some user_id))
    (fun e =>
       match e with
       | IntegrityError _ => mret None
       | _ => raise e
       end).

(** [create_rimaytik_session].  [local_now] is [datetime.now()], the
    naive local time in microseconds, to which the hours are added; [now]
    is the [CURRENT_TIMESTAMP] that [created_at] defaults to. *)
Definition create_rimaytik_session (now local_now : Z) (user_id : Z)
    (token device_info ip_address : string) (expires_hours : Z)
  : M RiMayTikDatabase string :=
  let expires_at := local_now + expires_hours * 3600 * 1000000 in
  d ← get;
  if has_token d token then
    raise (IntegrityError "rimaytik_security_sessions.session_token")
  else
    _ ← modify
          (set_sessions
             (rimaytik_security_sessions d ++
                [{| s_user_id := user_id; s_session_token := token;
                    s_device_info := device_info;
                    s_ip_address := ip_address; s_created_at := now;
                    s_expires_at := expires_at; s_active := true |}]));
    mret token.

(** The WHERE clause of [validate_rimaytik_session]; [now] is
    [CURRENT_TIMESTAMP], the whole seconds of UTC.  SQLite compares the
    stored text of [expires_at] (local time, with its microseconds unless
    they are zero) with the text of [CURRENT_TIMESTAMP]: the stored text is
    the greater one exactly when its count of microseconds is above that
    of the whole second [now]. *)
Definition session_matches (now : Z) (token : string) (r : SessionRow)
  : bool :=
  String.eqb (s_session_token r) token
  && s_active r
  && (now * 1000000 <? s_expires_at r).

(** [validate_rimaytik_session(token)]: [fetchone] takes the first
    selected row; [None] when there is none. *)
Definition validate_rimaytik_session (now : Z) (token : string)
    (d : RiMayTikDatabase) : option Z :=
  let result :=
    find (session_matches now token) (rimaytik_security_sessions d) in
  match result with
  | Some row => Some (s_user_id row)
  | None => None
  end.

(** [get_rimaytik_online_users]: online and seen in the last five
    minutes. *)
Definition get_rimaytik_online_users (now : Z) (d : RiMayTikDatabase)
  : list json :=
  map (fun r =>
         JDict [("username", JStr (u_username r));
                ("display_name", JStr (u_display_name r));
                ("security_level", JNum (u_security_level r))])
      (order_by_display_name
         (List.filter
            (fun r =>
               String.eqb (u_status r) "online"
               && match u_last_seen r with
                  | Some t => now - 300 <? t
                  | None => false
                  end)
            (rimaytik_users d))).

Definition str_opt (o : option string) : string :=
  match o with Some s => s | None => "None" end.

(** [log_rimaytik_message]: every exception is caught and reported as
    [False].  The [message_hash] argument is not stored. *)
Definition log_rimaytik_message (message_uuid : string)
    (sender : option string) (receiver : string) (message_hash : string)
  : M RiMayTikDatabase bool :=
  let conversation_hash :=
    sha256_hexdigest (encode (str_opt sender +:+ "_" +:+ receiver)) in
  d ← get;
  match select_user_id d sender, select_user_id d (Some receiver) with
  | Some sid, Some rid =>
      if has_message_uuid d message_uuid then mret false
      else
        _ ← modify
              (set_messages_meta
                 (rimaytik_messages_meta d ++
                    [{| m_message_uuid := message_uuid;
                        m_sender_id := sid; m_receiver_id := rid;
                        m_conversation_hash := conversation_hash;
                        m_message_type := "text" |}]));
        mret true
  | _, _ => mret false
  end.

(** [get_rimaytik_system_stats] *)
Definition get_rimaytik_system_stats (d : RiMayTikDatabase) : json :=
  JDict
    [("total_users", JNum (Z.of_nat (length (rimaytik_users d))));
     ("online_users",
      JNum (Z.of_nat
              (length (List.filter
                         (fun r => String.eqb (u_status r) "online")
                         (rimaytik_users d)))));
     ("total_messages",
      JNum (Z.of_nat (length (rimaytik_messages_meta d))));
     ("active_sessions",
      JNum (Z.of_nat
              (length (List.filter s_active
                                   (rimaytik_security_sessions d)))))].

(** The UPDATE in [handle_user_logout]. *)
Definition mark_offline (now : Z) (username : string)
    (d : RiMayTikDatabase) : RiMayTikDatabase :=
  set_users
    (map (fun r =>
            if String.eqb (u_username r) username then
              {| u_id := u_id r; u_username := u_username r;
                 u_display_name := u_display_name r;
                 u_public_key := u_public_key r;
                 u_password_hash := u_password_hash r;
                 u_last_login := u_last_login r;
                 u_last_seen := Some now;
                 u_status := "offline";
                 u_security_level := u_security_level r |}
            else r)
         (rimaytik_users d))
    (seq_users d) d.

End WithLibs.

End Database.

(* ===================================================================== *)
(** ** server/main.py: RiMayTikServer (connection registry and relay) *)
(* ===================================================================== *)

Module Server.

Import Protocol Database.

(** The payload of a registration request, read with [data.get]: the
    fields are strings, and [None] is an absent or null field. *)
Record RegisterData := mkRegisterData {
  reg_username : option string;
  reg_display_name : option string;
  reg_public_key : option string;
  reg_password : option string;
  reg_security_level : option json
}.

(** The server object.  A transport handle ([writer]) is a number; the
    value of [clients] is [(writer, public_key, session_token)]. *)
Record RiMayTikServer := mkServer {
  db : RiMayTikDatabase;
  clients : gmap string (nat * string * string);
  online_users : gset string;
  message_queue : list RiMayTikMessage
}.

(** The server and what has been handed to the [write] of each transport;
    a frame is the message whose [to_json()] text is written.  A transport
    whose connection is lost drops what it is handed. *)
Record World := mkWorld {
  server : RiMayTikServer;
  wire : gmap nat (list RiMayTikMessage)
}.

(** What a handler reads from outside while it serves one message.
    - [now]: the seconds since the epoch, which [time.time()],
      [datetime.now().timestamp()] and SQLite's [CURRENT_TIMESTAMP] (in
      UTC, to the second) are read from;
    - [utc_offset], [micros]: [datetime.now()] is the naive local time,
      [utc_offset] seconds away from UTC, with its microseconds;
    - [uuid]: the identifiers drawn by [uuid.uuid4()], numbered by the
      place that draws them; [gensalt]: the salt of [bcrypt.gensalt()];
    - [connection_lost wr]: the peer of transport [wr] is gone, so that
      [await wr.drain()] raises [ConnectionResetError]. *)
Record Env := mkEnv {
  now : Z;
  utc_offset : Z;
  micros : Z;
  uuid : nat -> string;
  gensalt : bytes;
  connection_lost : nat -> bool
}.

(** [datetime.now()], in microseconds of local time. *)
Definition datetime_now (env : Env) : Z :=
  (now env + utc_offset env) * 1000000 + micros env.

(** What every clock satisfies: a time zone is less than a day away from
    UTC, and the microseconds are a part of one second. *)
Definition clock_ok (env : Env) : Prop :=
  -86400 < utc_offset env < 86400 ∧ 0 <= micros env < 1000000.

(** [__init__]: the attributes of an instance, and the methods of the
    class. *)
Definition instance_attributes : list string :=
  ["host"; "port"; "ssl_context"; "db"; "clients"; "online_users";
   "message_queue"].

Definition methods : list string :=
  ["handle_client"; "process_rimaytik_message";
   "handle_rimaytik_register"; "handle_rimaytik_login";
   "handle_rimaytik_key_exchange"; "handle_rimaytik_direct_message";
   "handle_rimaytik_online_users"; "handle_rimaytik_contact_request";
   "handle_rimaytik_logout"; "handle_user_logout";
   "broadcast_rimaytik_online_users"; "start"; "monitor_system_stats";
   "__init__"].

Definition init (d : RiMayTikDatabase) : RiMayTikServer :=
  {| db := d; clients := ∅; online_users := ∅; message_queue := [] |}.

Definition set_db (d : RiMayTikDatabase) (s : RiMayTikServer)
  : RiMayTikServer :=
  {| db := d; clients := clients s; online_users := online_users s;
     message_queue := message_queue s |}.

Definition set_clients (c : gmap string (nat * string * string))
    (s : RiMayTikServer) : RiMayTikServer :=
  {| db := db s; clients := c; online_users := online_users s;
     message_queue := message_queue s |}.

Definition set_online_users (o : gset string) (s : RiMayTikServer)
  : RiMayTikServer :=
  {| db := db s; clients := clients s; online_users := o;
     message_queue := message_queue s |}.

Definition modify_server (f : RiMayTikServer -> RiMayTikServer)
  : M World unit :=
  modify (fun w => {| server := f (server w); wire := wire w |}).

Definition get_server : M World RiMayTikServer :=
  w ← get; mret (server w).

(** A method of [self.db]. *)
Definition self_db {A} (m : M RiMayTikDatabase A) : M World A :=
  zoom (fun w => db (server w))
       (fun w d => {| server := set_db d (server w); wire := wire w |})
       m.

(** [self.<name>]: an [AttributeError] unless the name is an attribute. *)
Definition getattr (name : string) : M World unit :=
  if bool_decide (name ∈ instance_attributes ++ methods) then mret tt
  else raise (AttributeError "RiMayTikServer" name).

(** [writer.write(frame)] *)
Definition write_wire (writer : nat) (frame : RiMayTikMessage)
    (wi : gmap nat (list RiMayTikMessage))
  : gmap nat (list RiMayTikMessage) :=
  <[writer := default [] (wi !! writer) ++ [frame]]> wi.

(** [writer.write(frame)] followed by [await writer.drain()]: [write]
    takes the frame whatever the state of the connection, [drain] raises
    when the connection is lost. *)
Definition write (env : Env) (writer : nat) (frame : RiMayTikMessage)
  : M World unit :=
  _ ← modify (fun w => {| server := server w;
                          wire := write_wire writer frame (wire w) |});
  if connection_lost env writer then raise ConnectionResetError
  else mret tt.

Definition error_message (env : Env) (k : nat)
    (dat : list (string * json)) : RiMayTikMessage :=
  RiMayTikMessage_new (uuid env k) (now env) RIMAYTIK_ERROR dat
                      None None None None None.

Definition success_message (env : Env) (k : nat)
    (dat : list (string * json)) : RiMayTikMessage :=
  RiMayTikMessage_new (uuid env k) (now env) RIMAYTIK_SUCCESS dat
                      None None None None None.

Definition truthy_id (o : option Z) : bool :=
  match o with Some n => negb (n =? 0) | None => false end.

Section WithLibs.

Context `{Libs}.

(** [broadcast_rimaytik_online_users]: one frame to every entry of
    [clients]; a [write] or [drain] that raises is skipped ([except:
    continue]). *)
Definition broadcast_rimaytik_online_users (env : Env) (k : nat)
  : M World unit :=
  s ← get_server;
  let online := get_rimaytik_online_users (now env) (db s) in
  let update_msg :=
    RiMayTikMessage_new (uuid env k) (now env) RIMAYTIK_ONLINE_USERS
      [("users", JList online);
       ("total_online", JNum (Z.of_nat (length online)));
       ("update_time", JNum (now env))]
      None None None None None in
  foldr (fun entry rest =>
           _ ← try_except (write env entry.2.1.1 update_msg)
                          (fun _ => mret tt);
           rest)
        (mret tt)
        (map_to_list (clients s)).

(** [handle_user_logout(username)] *)
Definition handle_user_logout (env : Env) (username : option string)
  : M World unit :=
  s ← get_server;
  match username with
  | Some username =>
      if bool_decide (is_Some (clients s !! username)) then
        _ ← modify_server (set_clients (delete username (clients s)));
        _ ← modify_server
              (fun s => set_online_users (online_users s ∖ {[username]})
                                         s);
        (* self.cursor.execute("UPDATE rimaytik_users SET ...") *)
        _ ← getattr "cursor";
        _ ← self_db (modify (mark_offline (now env) username));
        (* self.conn.commit() *)
        _ ← getattr "conn";
        broadcast_rimaytik_online_users env 0
      else mret tt
  | None => mret tt
  end.

(** [handle_rimaytik_logout(username)] *)
Definition handle_rimaytik_logout (env : Env) (username : option string)
  : M World RiMayTikMessage :=
  _ ← handle_user_logout env username;
  mret (success_message env 1
          [("message", JStr "Вы вышли из RiMayTik Messenger")]).

(** [handle_rimaytik_register(data, writer, client_ip)] *)
Definition handle_rimaytik_register (env : Env) (data : RegisterData)
    (writer : nat) (client_ip : string) : M World RiMayTikMessage :=
  let username := reg_username data in
  let display_name := reg_display_name data in
  let public_key := reg_public_key data in
  let password := reg_password data in
  let security_level := default (JNum 2) (reg_security_level data) in
  match username, public_key, password with
  | Some username, Some public_key, Some password =>
      if negb (truthy (Some username) && truthy (Some public_key)
               && truthy (Some password)) then
        mret (error_message env 0
                [("error",
                  JStr "Недостаточно данных для регистрации RiMayTik")])
      else if (py_len password <? 8)%nat then
        mret (error_message env 1
                [("error",
                  JStr "Пароль должен быть не менее 8 символов")])
      else
        user_id ← self_db (register_rimaytik_user
                             (gensalt env) username display_name
                             public_key password);
        if truthy_id user_id then
          let session_token :=
            String.substring 0 32
              (sha256_hexdigest
                 (encode (username +:+ public_key
                          +:+ str_float (now env)))) in
          _ ← self_db (create_rimaytik_session
                         (now env) (datetime_now env)
                         (default 0 user_id) session_token
                         ("RiMayTik Client " +:+ client_ip) client_ip 24);
          s ← get_server;
          _ ← modify_server
                (set_clients
                   (<[username := (writer, public_key, session_token)]>
                      (clients s)));
          _ ← modify_server
                (fun s => set_online_users
                            ({[username]} ∪ online_users s) s);
          s ← get_server;
          let welcome_msg :=
            RiMayTikMessage_new (uuid env 2) (now env)
              RIMAYTIK_SYSTEM_MESSAGE
              [("message",
                JStr ("Добро пожаловать в RiMayTik Messenger, "
                      +:+ or_else display_name username +:+ "!"));
               ("system_info",
                JDict [("users_online",
                        JNum (Z.of_nat (size (online_users s))));
                       ("security_level", security_level);
                       ("session_token", JStr session_token)])]
              None None None None None in
          _ ← broadcast_rimaytik_online_users env 3;
          s ← get_server;
          let stats := get_rimaytik_system_stats (db s) in
          mret (success_message env 4
                  [("success", JBool true);
                   ("user_id", of_opt_num user_id);
                   ("session_token", JStr session_token);
                   ("message", JStr "Регистрация в RiMayTik успешна");
                   ("stats", stats);
                   ("online_users",
                    JNum (Z.of_nat (size (online_users s))))])
        else
          mret (error_message env 5
                  [("error",
                    JStr "Имя пользователя уже занято в RiMayTik")])
  | _, _, _ =>
      mret (error_message env 0
              [("error",
                JStr "Недостаточно данных для регистрации RiMayTik")])
  end.

(** [handle_rimaytik_direct_message(message)] *)
Definition handle_rimaytik_direct_message (env : Env)
    (message : RiMayTikMessage) : M World RiMayTikMessage :=
  let recipient := receiver message in
  let message_id := message_id message in
  let encrypted_data := dict_get (data message) "encrypted_data" in
  match recipient, message_id, encrypted_data with
  | Some recipient, Some message_id, Some encrypted_data =>
      if negb (truthy (Some recipient) && truthy (Some message_id)
               && truthy_json encrypted_data) then
        mret (error_message env 0
                [("error", JStr "Неполные данные сообщения RiMayTik")])
      else
        s ← get_server;
        if bool_decide (is_Some (clients s !! recipient)) then
          entry ← liftR (getitem (clients s) recipient);
          let recipient_writer := entry.1.1 in
          let message_hash :=
            sha256_hexdigest (encode (json_dumps encrypted_data)) in
          _ ← self_db (log_rimaytik_message
                         message_id (sender message) recipient
                         message_hash);
          let forward_msg :=
            RiMayTikMessage_new (uuid env 1) (now env)
              RIMAYTIK_DIRECT_MESSAGE
              [("encrypted_data", encrypted_data);
               ("timestamp", of_opt_num (timestamp message));
               ("message_id", JStr message_id)]
              (sender message) (Some recipient) (Some message_id)
              None None in
          _ ← write env recipient_writer forward_msg;
          mret (success_message env 2
                  [("status", JStr "delivered");
                   ("message_id", JStr message_id);
                   ("timestamp", JNum (now env))])
        else
          mret (error_message env 3
                  [("error", JStr "Получатель не в сети");
                   ("message_id", JStr message_id);
                   ("suggestion",
                    JStr "Сообщение будет доставлено при следующем входе")])
  | _, _, _ =>
      mret (error_message env 0
              [("error", JStr "Неполные данные сообщения RiMayTik")])
  end.

End WithLibs.

(** The texts of the offline reply of [handle_rimaytik_direct_message]. *)
Definition recipient_offline_text : string := "Получатель не в сети".

Definition later_delivery_text : string :=
  "Сообщение будет доставлено при следующем входе".

(** The reply tells the sender that the message will be delivered at the
    recipient's next login. *)
Definition promises_later_delivery (reply : RiMayTikMessage) : Prop :=
  dict_get (data reply) "suggestion" = Some (JStr later_delivery_text).

(** Reading of the specification's offline reply: an error that carries a
    notice, and the notice says that the message will not be queued, so it
    does not promise a later delivery. *)
Definition carries_not_queued_notice (reply : RiMayTikMessage) : Prop :=
  type reply = RIMAYTIK_ERROR
  ∧ (∃ notice, dict_get (data reply) "suggestion" = Some (JStr notice))
  ∧ ¬ promises_later_delivery reply.


End Server.

(* ===================================================================== *)
(** ** Small executable stand-ins for the library functions

    They are used to run the engine and the server on concrete inputs.
    They are built like the real functions: both sides of a
    Diffie-Hellman exchange compute the same secret, AES-GCM decryption
    needs the 16-byte tag made by encryption and then gives the plaintext
    back, a signature verifies under the signer's public key, base64
    decoding undoes encoding. *)
(* ===================================================================== *)

Module Toy.

Import Engine Protocol Database.

Definition byte_of_Z (z : Z) : byte :=
  default x00 (Byte.of_N (Z.to_N (z mod 256))).

Definition Z_of_byte (b : byte) : Z := Z.of_N (Byte.to_N b).

Definition checksum (l : bytes) : Z :=
  fold_left (fun acc b => (acc * 31 + Z_of_byte b + 7) mod 251) l 1.

(** [len] bytes that depend on [seed] and differ from one another. *)
Definition stretch (seed : Z) (len : nat) : bytes :=
  map (fun i => byte_of_Z (seed + Z.of_nat i)) (seq 0 len).

Inductive ToyPublicKey :=
| ECPub (n : Z)
| RSAPub (n : Z).

(** Diffie-Hellman in the group of units modulo 23, generator 5. *)
Definition dh_public (a : Z) : Z := (5 ^ a) mod 23.

Definition toy_ecdh (a : Z) (peer : ToyPublicKey) : option bytes :=
  match peer with
  | ECPub b => Some [byte_of_Z ((b ^ a) mod 23)]
  | RSAPub _ => None
  end.

Definition toy_pem (k : ToyPublicKey) : string :=
  match k with
  | ECPub n => String.string_of_list_byte ["E"%byte; byte_of_Z n]
  | RSAPub n => String.string_of_list_byte ["R"%byte; byte_of_Z n]
  end.

Definition toy_load_pem (b : bytes) : option ToyPublicKey :=
  match b with
  | [t; n] =>
      if bool_decide (t = "E"%byte) then Some (ECPub (Z_of_byte n))
      else if bool_decide (t = "R"%byte) then Some (RSAPub (Z_of_byte n))
      else None
  | _ => None
  end.

Definition alg_tag (a : HashAlg) : byte :=
  match a with SHA256 => x01 | SHA512 => x02 end.

Definition toy_hkdf (a : HashAlg) (len : nat) (salt : option bytes)
    (info ikm : bytes) : bytes :=
  stretch (checksum (alg_tag a :: default [] salt ++ info ++ ikm)) len.

Definition xor_with (k : Z) (l : bytes) : bytes :=
  map (fun b => byte_of_Z (Z.lxor (Z_of_byte b) k)) l.

Definition toy_tag (key nonce aad ct : bytes) : bytes :=
  repeat (byte_of_Z (checksum (key ++ nonce ++ aad ++ ct))) 16.

Definition toy_gcm_encrypt (key nonce aad pt : bytes)
  : option (bytes * bytes) :=
  let ct := xor_with (checksum (key ++ nonce)) pt in
  Some (ct, toy_tag key nonce aad ct).

Definition toy_gcm_decrypt (key nonce tag aad ct : bytes) : option bytes :=
  if bool_decide (tag = toy_tag key nonce aad ct) then
    Some (xor_with (checksum (key ++ nonce)) ct)
  else None.

Definition toy_blake2b (dat key : bytes) (n : nat) : bytes :=
  stretch (checksum (key ++ dat)) n.

Definition toy_sign (d : Z) (dat : bytes) : bytes :=
  [byte_of_Z (checksum (byte_of_Z d :: dat))].

Definition toy_verify (k : ToyPublicKey) (sig dat : bytes) : bool :=
  match k with
  | RSAPub d => bool_decide (sig = toy_sign d dat)
  | ECPub _ => false
  end.

#[global] Instance toy_crypto : Crypto := {|
  ECPrivateKey := Z;
  RSAPrivateKey := Z;
  PublicKey := ToyPublicKey;
  ec_public_key := fun a => ECPub (dh_public a);
  rsa_public_key := RSAPub;
  public_bytes_pem := toy_pem;
  load_pem_public_key := toy_load_pem;
  ecdh_exchange := toy_ecdh;
  hkdf_derive := toy_hkdf;
  aes_gcm_encrypt := toy_gcm_encrypt;
  aes_gcm_decrypt := toy_gcm_decrypt;
  blake2b := toy_blake2b;
  rsa_sign_pss := toy_sign;
  rsa_verify_pss := toy_verify;
  b64encode := String.string_of_list_byte;
  b64decode := fun s => Some (String.list_byte_of_string s);
  utf8_decode := fun b => Some (String.string_of_list_byte b);
  json_dumps_metadata := fun s t l => s +:+ pretty t +:+ pretty l
|}.

Definition toy_entropy (rsa ec : Z) : Entropy := {|
  gen_rsa := fun _ => rsa;
  gen_ec := fun _ => ec;
  urandom := fun n => repeat x2a n;
  uuid4_hex := "0123456789abcdef0123456789abcdef";
  time_metadata := 1700000000;
  time_envelope := 1700000001
|}.

(** Alice: a fresh engine at the default level. *)
Definition alice : Engine.World :=
  {| Engine.self := Engine.init 2; Engine.calls := [] |}.

(** Bob: an engine whose ephemeral key pair has been generated. *)
Definition bob : Engine.World :=
  (generate_ephemeral_keypair (toy_entropy 11 15)
     {| Engine.self := Engine.init 2; Engine.calls := [] |}).1.

Definition bob_public_pem : string :=
  match Engine.ephemeral_keys (Engine.self bob) with
  | Some kp => toy_pem kp.2
  | None => ""
  end.

Definition alice_entropy : Entropy := toy_entropy 7 6.

(** The envelope Alice makes for Bob from ["hello"]. *)
Definition hello_envelope : Engine.World * Result Envelope :=
  encrypt_message alice_entropy "hello" bob_public_pem alice.

Definition alice_identity_pem : string := toy_pem (RSAPub 7).

Definition hello : Envelope :=
  match hello_envelope.2 with
  | Ok e => e
  | Raise _ => mkEnvelope "" "" "" "" "" "" "" "" "" 0
  end.

#[global] Instance toy_libs : Libs := {|
  bcrypt_hashpw := fun pw salt =>
    if (72 <? length pw)%nat then None
    else Some ("$2b$" +:+ pretty (checksum (salt ++ pw)));
  sha256_hexdigest := fun b => pretty (checksum b);
  json_dumps := fun _ => "{}";
  str_float := fun t => pretty t;
  order_by_display_name := fun l => l
|}.

Import Server.

Definition toy_env : Env := {|
  now := 1700000000;
  utc_offset := 0;
  micros := 250000;
  uuid := fun k => "uuid-" +:+ pretty k;
  gensalt := [x01; x02];
  connection_lost := fun _ => false
|}.

Definition register_request (name password : string) : RegisterData := {|
  reg_username := Some name;
  reg_display_name := None;
  reg_public_key := Some ("PEM-" +:+ name);
  reg_password := Some password;
  reg_security_level := None
|}.

(** A server on which alice (transport 1) and bob (transport 2) have
    registered. *)
Definition world0 : Server.World :=
  {| server := Server.init Database.empty; wire := ∅ |}.

Definition world1 : Server.World :=
  (handle_rimaytik_register toy_env
     (register_request "alice" "correct horse") 1%nat "10.0.0.1" world0).1.

Definition world2 : Server.World :=
  (handle_rimaytik_register toy_env
     (register_request "bob" "battery staple") 2%nat "10.0.0.2" world1).1.

Definition sample_envelope : json :=
  JDict [("ciphertext", JStr "q83vEjRWeJA=");
         ("iv", JStr "AAECAwQFBgcICQoL");
         ("hmac", JStr "3q2+7w==")].

(** A direct message from alice to [rcv]. *)
Definition direct_message (rcv : string) : RiMayTikMessage :=
  RiMayTikMessage_new "feedbeef" 1700000005 RIMAYTIK_DIRECT_MESSAGE
    [("encrypted_data", sample_envelope);
     ("message_type", JStr "text");
     ("security_level", JNum 2)]
    (Some "alice") (Some rcv) None None None.

(** A session table with a live, an expired and a deactivated token. *)
Definition sample_sessions : RiMayTikDatabase :=
  set_sessions
    [mkSessionRow 1 "tok-live" "dev" "ip" 1000 90000000000 true;
     mkSessionRow 2 "tok-old" "dev" "ip" 1000 2000000000 true;
     mkSessionRow 3 "tok-off" "dev" "ip" 1000 90000000000 false]
    Database.empty.

End Toy.

(* ===================================================================== *)
(** ** client/encryption.py: key export and import *)
(* ===================================================================== *)

Module EngineKeys.

Import Engine.

(** Serialization of the identity private key. *)
Class KeyFiles `{Crypto} := {
  (** [key.private_bytes(PEM, PKCS8, BestAvailableEncryption(password))
      .decode()]; the library refuses an empty password. *)
  private_bytes_pkcs8 : RSAPrivateKey -> bytes -> option string;
  (** [serialization.load_pem_private_key(data, password=password)] *)
  load_pem_private_key : bytes -> bytes -> option RSAPrivateKey
}.

(** The dict that [export_keys] serializes with [json.dumps]. *)
Record KeysData := mkKeysData {
  kd_private_key : string;
  kd_public_key : string;
  kd_security_level : Z;
  kd_exported_at : Z;
  kd_system : string
}.

(** What [json.loads] gives to [import_keys], read at the types that
    [export_keys] writes: [None] is an absent key. *)
Record ParsedKeys := mkParsedKeys {
  p_private_key : option string;
  p_security_level : option Z
}.

(** [json.loads(json.dumps(keys_data))] *)
Definition parse_exported (kd : KeysData) : ParsedKeys :=
  {| p_private_key := Some (kd_private_key kd);
     p_security_level := Some (kd_security_level kd) |}.

Section WithKeyFiles.

Context `{KeyFiles}.

Definition set_security_level (l : Z) (e : RiMayTikEncryptionEngine)
  : RiMayTikEncryptionEngine :=
  {| security_level := l; identity_keys := identity_keys e;
     ephemeral_keys := ephemeral_keys e;
     session_keys := session_keys e; key_store := key_store e |}.

(** [export_keys(password)]; [now] is [time.time()]. *)
Definition export_keys (ent : Entropy) (now : Z) (password : string)
  : M World KeysData :=
  e ← get_self;
  match identity_keys e with
  | None => raise (ValueError "RiMayTik: Ключи не сгенерированы")
  | Some kp =>
      private_key_pem ←
        liftR (lib "private_bytes"
                   (private_bytes_pkcs8 kp.1 (encode password)));
      public_key_pem ← get_public_key_pem ent;
      e ← get_self;
      mret {| kd_private_key := private_key_pem;
              kd_public_key := public_key_pem;
              kd_security_level := security_level e;
              kd_exported_at := now;
              kd_system := "RiMayTik Messenger" |}
  end.

(** [import_keys(encrypted_keys_json, password)]; [parsed] is the result
    of [json.loads], [None] when it raises. *)
Definition import_keys (parsed : option ParsedKeys) (password : string)
  : M World unit :=
  try_except
    (keys_data ← liftR (lib "json.loads" parsed);
     private_key ←
       liftR (subscript (p_private_key keys_data) "private_key");
     sk ← liftR (lib "load_pem_private_key"
                     (load_pem_private_key (encode private_key)
                                           (encode password)));
     _ ← modify_self (set_identity_keys (Some (sk, rsa_public_key sk)));
     modify_self
       (set_security_level (default 2 (p_security_level keys_data))))
    (fun e => raise (ValueErrorFrom "RiMayTik: Ошибка импорта ключей: " e)).

(** The library equations that a signature round trip goes through, at
    one key pair and one message. *)
Definition signing_laws_at (sk : RSAPrivateKey) (pk : PublicKey)
    (data : bytes) : Prop :=
  load_pem_public_key (encode (public_bytes_pem pk)) = Some pk
  ∧ b64decode (b64encode (rsa_sign_pss sk data))
    = Some (rsa_sign_pss sk data)
  ∧ rsa_verify_pss pk (rsa_sign_pss sk data) data = true.

(** [_ratchet_keys] run once for every secret of a list, in order. *)
Definition ratchet_all (user : string) (secrets : list bytes) (w : World)
  : World :=
  fold_left (fun w s => (_ratchet_keys user s w).1) secrets w.

(** A call of one of the public methods of the engine. *)
Inductive Method :=
| GenerateIdentityKeypair (ent : Entropy)
| GenerateEphemeralKeypair (ent : Entropy)
| GetPublicKeyPem (ent : Entropy)
| GetEphemeralPublicKeyPem (ent : Entropy)
| DeriveSharedSecret (peer_public_key_pem : string)
| EncryptMessage (ent : Entropy) (message recipient_public_key_pem : string)
| DecryptMessage (encrypted_data : Envelope) (sender_public_key_pem : string)
| SignData (ent : Entropy) (data : bytes)
| VerifySignature (data : bytes) (signature public_key_pem : string)
| ExportKeys (ent : Entropy) (now : Z) (password : string)
| ImportKeys (parsed : option ParsedKeys) (password : string).

(** The engine after the call, whatever it returns or raises. *)
Definition call (m : Method) (w : World) : World :=
  match m with
  | GenerateIdentityKeypair ent => (generate_identity_keypair ent w).1
  | GenerateEphemeralKeypair ent => (generate_ephemeral_keypair ent w).1
  | GetPublicKeyPem ent => (get_public_key_pem ent w).1
  | GetEphemeralPublicKeyPem ent => (get_ephemeral_public_key_pem ent w).1
  | DeriveSharedSecret pem => (derive_shared_secret pem w).1
  | EncryptMessage ent m pem => (encrypt_message ent m pem w).1
  | DecryptMessage env pem => (decrypt_message env pem w).1
  | SignData ent data => (sign_data ent data w).1
  | VerifySignature data sig pem => (verify_signature data sig pem w).1
  | ExportKeys ent now password => (export_keys ent now password w).1
  | ImportKeys parsed password => (import_keys parsed password w).1
  end.

Definition call_all (ms : list Method) (w : World) : World :=
  fold_left (fun w m => call m w) ms w.

End WithKeyFiles.

End EngineKeys.

(* ===================================================================== *)
(** ** shared/protocol.py: the wire form of a message *)
(* ===================================================================== *)

Module Wire.

Import Protocol.

(** [RiMayTikMessageType.value] *)
Definition type_value (t : RiMayTikMessageType) : string :=
  match t with
  | RIMAYTIK_REGISTER => "rimaytik_register"
  | RIMAYTIK_LOGIN => "rimaytik_login"
  | RIMAYTIK_LOGOUT => "rimaytik_logout"
  | RIMAYTIK_KEY_EXCHANGE => "rimaytik_key_exchange"
  | RIMAYTIK_KEY_VERIFY => "rimaytik_key_verify"
  | RIMAYTIK_DIRECT_MESSAGE => "rimaytik_direct_message"
  | RIMAYTIK_GROUP_MESSAGE => "rimaytik_group_message"
  | RIMAYTIK_SYSTEM_MESSAGE => "rimaytik_system_message"
  | RIMAYTIK_ONLINE_USERS => "rimaytik_online_users"
  | RIMAYTIK_USER_STATUS => "rimaytik_user_status"
  | RIMAYTIK_CONTACT_REQUEST => "rimaytik_contact_request"
  | RIMAYTIK_CONTACT_ACCEPT => "rimaytik_contact_accept"
  | RIMAYTIK_FILE_TRANSFER_REQUEST => "rimaytik_file_request"
  | RIMAYTIK_FILE_TRANSFER_DATA => "rimaytik_file_data"
  | RIMAYTIK_SECURITY_ALERT => "rimaytik_security_alert"
  | RIMAYTIK_ENCRYPTION_INIT => "rimaytik_encryption_init"
  | RIMAYTIK_ERROR => "rimaytik_error"
  | RIMAYTIK_SUCCESS => "rimaytik_success"
  end.

Definition all_types : list RiMayTikMessageType :=
  [RIMAYTIK_REGISTER; RIMAYTIK_LOGIN; RIMAYTIK_LOGOUT;
   RIMAYTIK_KEY_EXCHANGE; RIMAYTIK_KEY_VERIFY;
   RIMAYTIK_DIRECT_MESSAGE; RIMAYTIK_GROUP_MESSAGE;
   RIMAYTIK_SYSTEM_MESSAGE;
   RIMAYTIK_ONLINE_USERS; RIMAYTIK_USER_STATUS;
   RIMAYTIK_CONTACT_REQUEST; RIMAYTIK_CONTACT_ACCEPT;
   RIMAYTIK_FILE_TRANSFER_REQUEST; RIMAYTIK_FILE_TRANSFER_DATA;
   RIMAYTIK_SECURITY_ALERT; RIMAYTIK_ENCRYPTION_INIT;
   RIMAYTIK_ERROR; RIMAYTIK_SUCCESS].

(** [RiMayTikMessageType(value)]: the member with that value, in
    definition order; [None] when the enum raises [ValueError]. *)
Definition type_of_value (v : string) : option RiMayTikMessageType :=
  find (fun t => String.eqb (type_value t) v) all_types.

(** The JSON object of one frame, read at the types of the dataclass
    fields: [None] is an absent key. *)
Record Frame := mkFrame {
  f_protocol : option string;
  f_message_id : option string;
  f_type : option string;
  f_sender : option string;
  f_receiver : option string;
  f_timestamp : option Z;
  f_data : option (list (string * json));
  f_signature : option string
}.

Definition protocol_version : string := "RiMayTik v1.0".

(** [to_json]: the dict given to [json.dumps]. *)
Definition to_json (m : RiMayTikMessage) : Frame :=
  {| f_protocol := Some protocol_version;
     f_message_id := message_id m;
     f_type := Some (type_value (type m));
     f_sender := sender m;
     f_receiver := receiver m;
     f_timestamp := timestamp m;
     f_data := Some (data m);
     f_signature := signature m |}.

Definition parse_error_prefix : string :=
  "Ошибка парсинга сообщения RiMayTik: ".

(** What [json.loads] returns: an object, read as a frame, or a value of
    another kind, of which the name of the Python type is kept (["list"],
    ["int"], ["float"], ["str"], ["bool"], ["NoneType"]). *)
Inductive Loaded :=
| LObject (fr : Frame)
| LOther (py_type : string).

(** [except (json.JSONDecodeError, KeyError, ValueError)]: the exceptions
    that [from_json] turns into its own [ValueError]. *)
Definition caught (e : exn) : bool :=
  match e with
  | KeyError _ | ValueError _ | ValueErrorFrom _ _ | LibraryError _ => true
  | _ => false
  end.

(** [from_json(json_str)]: [parsed] is the result of [json.loads], [None]
    when it raises [JSONDecodeError]; [uuid_hex] and [now] are what
    [__post_init__] draws.  On a value that is not an object, [data.get]
    is an [AttributeError], which the [except] clause lets through. *)
Definition from_json (uuid_hex : string) (now : Z) (parsed : option Loaded)
  : Result RiMayTikMessage :=
  let body : Result RiMayTikMessage :=
    loaded ← lib "json.loads" parsed;
    match loaded with
    | LOther py_type => Raise (AttributeError py_type "get")
    | LObject fr =>
        if negb (bool_decide (f_protocol fr = Some protocol_version)) then
          Raise (ValueError "Неверная версия протокола RiMayTik")
        else
          tv ← subscript (f_type fr) "type";
          ty ← lib "RiMayTikMessageType" (type_of_value tv);
          dat ← subscript (f_data fr) "data";
          Ok (RiMayTikMessage_new uuid_hex now ty dat (f_sender fr)
                (f_receiver fr) (f_message_id fr) (f_timestamp fr)
                (f_signature fr))
    end in
  match body with
  | Ok m => Ok m
  | Raise e =>
      if caught e then Raise (ValueErrorFrom parse_error_prefix e)
      else Raise e
  end.

(** The state in which [__post_init__] leaves every message: an
    identifier and a time stamp are present. *)
Definition well_formed (m : RiMayTikMessage) : Prop :=
  truthy (message_id m) = true ∧ truthy_time (timestamp m) = true.

End Wire.

(* ===================================================================== *)
(** ** server/database.py: authentication and lookups *)
(* ===================================================================== *)

Module Accounts.

Import Protocol Database.

(** [bcrypt.checkpw(password, hashed)] *)
Class AuthLibs := {
  bcrypt_checkpw : bytes -> bytes -> bool
}.

Definition update_user (f : UserRow -> UserRow) (sel : UserRow -> bool)
    (d : RiMayTikDatabase) : RiMayTikDatabase :=
  set_users (map (fun r => if sel r then f r else r) (rimaytik_users d))
            (seq_users d) d.

Definition with_login (now : Z) (r : UserRow) : UserRow :=
  {| u_id := u_id r; u_username := u_username r;
     u_display_name := u_display_name r; u_public_key := u_public_key r;
     u_password_hash := u_password_hash r;
     u_last_login := Some now; u_last_seen := u_last_seen r;
     u_status := "online"; u_security_level := u_security_level r |}.

Definition with_last_seen (now : Z) (r : UserRow) : UserRow :=
  {| u_id := u_id r; u_username := u_username r;
     u_display_name := u_display_name r; u_public_key := u_public_key r;
     u_password_hash := u_password_hash r;
     u_last_login := u_last_login r; u_last_seen := Some now;
     u_status := u_status r; u_security_level := u_security_level r |}.

(** [SELECT ... WHERE username = ?] with a parameter that may be [None]
    (SQL NULL, which matches no row). *)
Definition username_is (u : option string) (r : UserRow) : bool :=
  match u with
  | Some name => String.eqb (u_username r) name
  | None => false
  end.

Section WithAuth.

Context `{AuthLibs}.

(** [authenticate_rimaytik_user(username, password)]; [password.encode()]
    on [None] is an [AttributeError], reached only when a row was
    selected. *)
Definition authenticate_rimaytik_user (now : Z)
    (username password : option string)
  : M RiMayTikDatabase (option Z) :=
  d ← get;
  let result :=
    find (fun r => username_is username r
                   && negb (String.eqb (u_status r) "banned"))
         (rimaytik_users d) in
  match result with
  | None => mret None
  | Some row =>
      match password with
      | None => raise (AttributeError "NoneType" "encode")
      | Some pw =>
          if bcrypt_checkpw (encode pw) (encode (u_password_hash row)) then
            let user_id := u_id row in
            _ ← modify (update_user (with_login now)
                                    (fun r => u_id r =? user_id));
            mret (Some user_id)
          else mret None
      end
  end.

End WithAuth.

(** [get_rimaytik_public_key(username)] *)
Definition get_rimaytik_public_key (username : option string)
    (d : RiMayTikDatabase) : option string :=
  u_public_key
    <$> find (fun r => username_is username r
                       && String.eqb (u_status r) "online")
             (rimaytik_users d).

(** [get_rimaytik_display_name(username)]: the stored name, or the
    argument itself when there is no such user. *)
Definition get_rimaytik_display_name (username : option string)
    (d : RiMayTikDatabase) : option string :=
  match find (username_is username) (rimaytik_users d) with
  | Some r => Some (u_display_name r)
  | None => username
  end.

(** [update_rimaytik_last_seen(user_id)] *)
Definition update_rimaytik_last_seen (now : Z) (user_id : Z)
    (d : RiMayTikDatabase) : RiMayTikDatabase :=
  update_user (with_last_seen now) (fun r => u_id r =? user_id) d.



Definition usernames (d : RiMayTikDatabase) : list string :=
  map u_username (rimaytik_users d).

Definition find_user (name : string) (d : RiMayTikDatabase)
  : option UserRow :=
  find (fun r => String.eqb (u_username r) name) (rimaytik_users d).

(** The key of the usernames listed by [get_rimaytik_online_users]. *)
Definition listed_usernames (l : list json) : list (option json) :=
  map (fun j => match j with
                | JDict d => dict_get d "username"
                | _ => None
                end) l.

End Accounts.

(* ===================================================================== *)
(** ** server/database.py: the rows that registration inserts *)
(* ===================================================================== *)

Module Registration.

Import Protocol Database.

Section WithLibs.

Context `{Libs}.

(** The row of the first INSERT of [register_rimaytik_user]; [h] is the
    password hash. *)
Definition new_user_row (d : RiMayTikDatabase) (h : string)
    (u : string) (dn : option string) (k : string) : UserRow :=
  {| u_id := seq_users d + 1; u_username := u;
     u_display_name := or_else dn u; u_public_key := k;
     u_password_hash := h;
     u_last_login := None; u_last_seen := None; u_status := "online";
     u_security_level := 2 |}.

(** The row of its second INSERT. *)
Definition welcome_row (user_id : Z) : MetaRow :=
  {| m_message_uuid := "welcome_" +:+ pretty user_id; m_sender_id := 0;
     m_receiver_id := user_id;
     m_conversation_hash :=
       sha256_hexdigest (encode ("welcome_" +:+ pretty user_id));
     m_message_type := "system" |}.

(** The engine's ORDER BY returns the selected rows, reordered. *)
Definition order_is_permutation : Prop :=
  ∀ l, order_by_display_name l ≡ₚ l.

End WithLibs.

End Registration.

(* ===================================================================== *)
(** ** server/main.py: login, relays of other message kinds, dispatch *)
(* ===================================================================== *)

Module Relay.

Import Protocol Database Accounts Registration Server.


(** [hashlib.md5(b).hexdigest()] *)
Class RelayLibs := {
  md5_hexdigest : bytes -> string
}.

(** The payload of a login request, read with [data.get]: the fields are
    strings, and [None] is an absent or null field. *)
Record LoginData := mkLoginData {
  log_username : option string;
  log_password : option string;
  log_session_token : option string
}.

(** [target_user in self.clients] followed by [self.clients[target_user]]:
    a list or a dict is unhashable, any other value that is not a string
    is not a key of the registry. *)
Definition lookup_target (s : RiMayTikServer) (target : option json)
  : Result (option (nat * string * string)) :=
  match target with
  | Some (JStr name) => Ok (clients s !! name)
  | Some (JList _) => Raise (TypeError "unhashable type: 'list'")
  | Some (JDict _) => Raise (TypeError "unhashable type: 'dict'")
  | _ => Ok None
  end.

Section WithLibs.

Context `{Libs} `{AuthLibs} `{RelayLibs}.

(** [self.clients[username] = (writer, public_key, session_token)] and
    [self.online_users.add(username)]. *)
Definition connect (username : string) (writer : nat)
    (public_key session_token : string) : M World unit :=
  s ← get_server;
  _ ← modify_server
        (set_clients
           (<[username := (writer, public_key, session_token)]>
              (clients s)));
  modify_server
    (fun s => set_online_users ({[username]} ∪ online_users s) s).

(** The first part of [handle_rimaytik_login]: restoring a session from a
    token.  [Some reply] is the [return] inside it, [None] falls through
    to the password check. *)
Definition restore_session (env : Env) (session_token : option string)
    (writer : nat) : M World (option RiMayTikMessage) :=
  match session_token with
  | Some token =>
      if negb (String.eqb token "") then
        s ← get_server;
        let user_id := validate_rimaytik_session (now env) token (db s) in
        if truthy_id user_id then
          (* self.cursor.execute("SELECT username, public_key ...") *)
          _ ← getattr "cursor";
          s ← get_server;
          match find (fun r => u_id r =? default 0 user_id)
                     (rimaytik_users (db s)) with
          | Some user_data =>
              _ ← connect (u_username user_data) writer
                          (u_public_key user_data) token;
              _ ← broadcast_rimaytik_online_users env 0;
              mret (Some
                      (success_message env 1
                         [("success", JBool true);
                          ("message", JStr "Сессия RiMayTik восстановлена");
                          ("username", JStr (u_username user_data));
                          ("session_token", JStr token)]))
          | None => mret None
          end
        else mret None
      else mret None
  | None => mret None
  end.

(** [handle_rimaytik_login(data, writer, client_ip)].  After a successful
    [authenticate_rimaytik_user] the username is a string and the row is
    online, so [get_rimaytik_public_key] finds it; the model registers no
    connection in the other, unreachable, cases. *)
Definition handle_rimaytik_login (env : Env) (data : LoginData)
    (writer : nat) (client_ip : string) : M World RiMayTikMessage :=
  let username := log_username data in
  let password := log_password data in
  restored ← restore_session env (log_session_token data) writer;
  match restored with
  | Some reply => mret reply
  | None =>
      user_id ← self_db (authenticate_rimaytik_user (now env)
                                                    username password);
      if truthy_id user_id then
        s ← get_server;
        let public_key := get_rimaytik_public_key username (db s) in
        let session_token :=
          String.substring 0 32
            (sha256_hexdigest
               (encode (str_opt username +:+ str_opt public_key
                        +:+ str_float (now env)))) in
        _ ← self_db (create_rimaytik_session
                       (now env) (datetime_now env)
                       (default 0 user_id) session_token
                       ("RiMayTik Client " +:+ client_ip) client_ip 24);
        _ ← match username, public_key with
            | Some u, Some k => connect u writer k session_token
            | _, _ => mret tt
            end;
        _ ← self_db (modify (update_rimaytik_last_seen
                               (now env) (default 0 user_id)));
        _ ← broadcast_rimaytik_online_users env 2;
        mret (success_message env 3
                [("success", JBool true);
                 ("user_id", of_opt_num user_id);
                 ("session_token", JStr session_token);
                 ("public_key", of_opt_str public_key);
                 ("message", JStr "Вход в RiMayTik успешен")])
      else
        mret (error_message env 4
                [("error", JStr "Неверные учетные данные RiMayTik")])
  end.

(** [handle_rimaytik_key_exchange(message)] *)
Definition handle_rimaytik_key_exchange (env : Env)
    (message : RiMayTikMessage) : M World RiMayTikMessage :=
  let target_user := dict_get (data message) "target_user" in
  s ← get_server;
  found ← liftR (lookup_target s target_user);
  match found with
  | Some entry =>
      let target_writer := entry.1.1 in
      let forward_msg :=
        RiMayTikMessage_new (uuid env 0) (now env) RIMAYTIK_KEY_EXCHANGE
          (data message) (sender message) None None None None in
      _ ← write env target_writer forward_msg;
      mret (success_message env 1
              [("status", JStr "key_exchange_forwarded")])
  | None =>
      mret (error_message env 2
              [("error", JStr "Пользователь не онлайн в RiMayTik")])
  end.

(** [handle_rimaytik_contact_request(message)]; [message.sender.encode()]
    on [None] is an [AttributeError]. *)
Definition handle_rimaytik_contact_request (env : Env)
    (message : RiMayTikMessage) : M World RiMayTikMessage :=
  let target_user := dict_get (data message) "target_user" in
  s ← get_server;
  found ← liftR (lookup_target s target_user);
  match found with
  | Some entry =>
      let target_writer := entry.1.1 in
      match sender message with
      | None => raise (AttributeError "NoneType" "encode")
      | Some from =>
          let forward_msg :=
            RiMayTikMessage_new (uuid env 0) (now env)
              RIMAYTIK_CONTACT_REQUEST
              [("request_id",
                JStr ("rimaytik_req_"
                      +:+ String.substring 0 8
                            (md5_hexdigest (encode from))));
               ("sender_display_name",
                of_opt_str (get_rimaytik_display_name (Some from) (db s)));
               ("message",
                default (JStr "Хочу добавить вас в контакты RiMayTik")
                        (dict_get (data message) "message"));
               ("timestamp", JNum (now env))]
              (Some from) None None None None in
          _ ← write env target_writer forward_msg;
          mret (success_message env 1
                  [("status", JStr "contact_request_sent")])
      end
  | None =>
      mret (error_message env 2
              [("error", JStr "Пользователь не найден в RiMayTik")])
  end.

(** [handle_rimaytik_online_users(requester)] *)
Definition handle_rimaytik_online_users (env : Env)
    (requester : option string) : M World RiMayTikMessage :=
  s ← get_server;
  let online_users := get_rimaytik_online_users (now env) (db s) in
  mret (RiMayTikMessage_new (uuid env 0) (now env) RIMAYTIK_ONLINE_USERS
          [("users", JList online_users);
           ("total_online", JNum (Z.of_nat (length online_users)));
           ("server_time", JNum (now env))]
          None None None None None).

(** A received message, with its payload read at the types that its
    handler uses; [ReqOther] is a message of any other type. *)
Inductive Request :=
| ReqRegister (data : RegisterData)
| ReqLogin (data : LoginData)
| ReqKeyExchange (message : RiMayTikMessage)
| ReqDirectMessage (message : RiMayTikMessage)
| ReqOnlineUsers (sender : option string)
| ReqContactRequest (message : RiMayTikMessage)
| ReqLogout (sender : option string)
| ReqOther.

(** A handler's reply, returned by [process_rimaytik_message]. *)
Definition replying (m : M World RiMayTikMessage)
  : M World (option RiMayTikMessage) :=
  reply ← m; mret (Some reply).

(** [process_rimaytik_message(message, writer, client_ip)] *)
Definition process_rimaytik_message (env : Env) (req : Request)
    (writer : nat) (client_ip : string)
  : M World (option RiMayTikMessage) :=
  match req with
  | ReqRegister data =>
      replying (handle_rimaytik_register env data writer client_ip)
  | ReqLogin data =>
      replying (handle_rimaytik_login env data writer client_ip)
  | ReqKeyExchange message =>
      replying (handle_rimaytik_key_exchange env message)
  | ReqDirectMessage message =>
      replying (handle_rimaytik_direct_message env message)
  | ReqOnlineUsers sender =>
      replying (handle_rimaytik_online_users env sender)
  | ReqContactRequest message =>
      replying (handle_rimaytik_contact_request env message)
  | ReqLogout sender => replying (handle_rimaytik_logout env sender)
  | ReqOther => mret None
  end.

(** One received message: what arrives, on which transport, from where,
    under which clock and entropy. *)
Record Arrival := mkArrival {
  a_env : Env;
  a_request : Request;
  a_writer : nat;
  a_client_ip : string
}.

(** The server after a sequence of messages has been processed, whatever
    each call returns or raises. *)
Definition process_all (arrivals : list Arrival) (w : World) : World :=
  fold_left
    (fun w a =>
       (process_rimaytik_message (a_env a) (a_request a) (a_writer a)
                                 (a_client_ip a) w).1)
    arrivals w.

End WithLibs.

(** The two halves of the registry agree: the keys of [clients] are the
    members of [online_users]. *)
Definition registry_consistent (s : RiMayTikServer) : Prop :=
  dom (clients s) = online_users s.

(** The number of entries of [clients] that hold the transport [wr]. *)
Definition entries_on (wr : nat)
    (c : gmap string (nat * string * string)) : nat :=
  length (List.filter (fun e : string * (nat * string * string) =>
                         Nat.eqb e.2.1.1 wr)
                      (map_to_list c)).

End Relay.

(* ===================================================================== *)
(** ** Notions used to state properties of the trust store and the relay *)
(* ===================================================================== *)

Module Fingerprint.

Import KeyManager.

(** The characters a fingerprint is made of. *)
Definition fingerprint_char (c : ascii) : bool :=
  existsb (Ascii.eqb c) (String.list_ascii_of_string "0123456789abcdef:").

(** The user an operation of the key manager is about. *)
Definition op_user (op : Op) : string :=
  match op with
  | OpAdd _ u _ _ => u
  | OpVerify u _ => u
  | OpStatus _ u => u
  end.

End Fingerprint.

Module Presence.

Import Protocol Database Accounts Server Relay.

(** [m] keeps [P]: whatever [m] returns or raises, a state in which [P]
    holds is followed by one in which it holds. *)
Definition keeps {A} (P : World -> Prop) (m : M World A) : Prop :=
  ∀ w, P w → P (m w).1.

(** A property of the server object alone. *)
Definition on_registry (R : RiMayTikServer -> Prop) (w : World) : Prop :=
  R (server w).

Section WithLibs.

Context `{Libs}.

(** The frame that [broadcast_rimaytik_online_users] sends. *)
Definition online_update (env : Env) (k : nat) (d : RiMayTikDatabase)
  : RiMayTikMessage :=
  let online := get_rimaytik_online_users (now env) d in
  RiMayTikMessage_new (uuid env k) (now env) RIMAYTIK_ONLINE_USERS
    [("users", JList online);
     ("total_online", JNum (Z.of_nat (length online)));
     ("update_time", JNum (now env))]
    None None None None None.


End WithLibs.


End Presence.

(* ===================================================================== *)
(** ** Stand-ins for key files and password checks, sample inputs *)
(* ===================================================================== *)

Module Sample.

Import Engine EngineKeys Protocol Database Accounts Server Relay.

(** A key file is the key and a check value of the password. *)
#[global] Instance toy_key_files : @KeyFiles Toy.toy_crypto := {|
  private_bytes_pkcs8 := fun (sk : @RSAPrivateKey Toy.toy_crypto) pw =>
    match pw with
    | [] => None
    | _ => Some (String.string_of_list_byte
                   [Toy.byte_of_Z sk; Toy.byte_of_Z (Toy.checksum pw)])
    end;
  load_pem_private_key := fun dat pw =>
    match dat with
    | [k; c] =>
        if bool_decide (c = Toy.byte_of_Z (Toy.checksum pw)) then
          Some (Toy.Z_of_byte k : @RSAPrivateKey Toy.toy_crypto)
        else None
    | _ => None
    end
|}.

(** Hashes are compared under the salt of [Toy.toy_env]. *)
#[global] Instance toy_auth : AuthLibs := {|
  bcrypt_checkpw := fun pw h =>
    bool_decide (Some h
                 = encode <$> bcrypt_hashpw pw (gensalt Toy.toy_env))
|}.

#[global] Instance toy_relay : RelayLibs := {|
  md5_hexdigest := fun b => pretty (Toy.checksum b)
|}.

Definition toy_sha256 (b : bytes) : bytes :=
  Toy.stretch (Toy.checksum b) 32.

(** Alice after her identity key pair has been generated. *)
Definition alice_with_keys : Engine.World :=
  (generate_identity_keypair Toy.alice_entropy Toy.alice).1.

(** A later moment on the server's clock. *)
Definition later_env : Env := {|
  now := 1700000100;
  utc_offset := 0;
  micros := 750000;
  uuid := fun k => "uuid2-" +:+ pretty k;
  gensalt := [x03; x04];
  connection_lost := fun _ => false
|}.

(** The same moment on a server in New York (UTC-5), and on one in
    Tokyo (UTC+9). *)
Definition new_york_env : Env := {|
  now := 1700000100;
  utc_offset := -18000;
  micros := 750000;
  uuid := fun k => "uuid2-" +:+ pretty k;
  gensalt := [x03; x04];
  connection_lost := fun _ => false
|}.

Definition tokyo_env : Env := {|
  now := 1700000100;
  utc_offset := 32400;
  micros := 750000;
  uuid := fun k => "uuid2-" +:+ pretty k;
  gensalt := [x03; x04];
  connection_lost := fun _ => false
|}.


Definition login_request (name password : string) : LoginData := {|
  log_username := Some name;
  log_password := Some password;
  log_session_token := None
|}.

Definition token_request (token : string) : LoginData := {|
  log_username := None;
  log_password := None;
  log_session_token := Some token
|}.



(** A contact request to bob, from [from]. *)
Definition contact_request (from : option string) : RiMayTikMessage :=
  RiMayTikMessage_new "c0ffee" 1700000007 RIMAYTIK_CONTACT_REQUEST
    [("target_user", JStr "bob")] from None None None None.


(** A morning on the server: registration, a login, a key exchange, a
    logout. *)
Definition morning : list Arrival :=
  [mkArrival Toy.toy_env
     (ReqRegister (Toy.register_request "alice" "correct horse"))
     1%nat "10.0.0.1";
   mkArrival later_env (ReqLogin (login_request "alice" "correct horse"))
     3%nat "10.0.0.3";
   mkArrival later_env (ReqContactRequest (contact_request None))
     3%nat "10.0.0.3";
   mkArrival later_env (ReqLogout (Some "alice")) 3%nat "10.0.0.3"].

End Sample.

(* ===================================================================== *)
(** * Properties *)
(* ===================================================================== *)

(** ** Trust store *)

Section TrustStore.

Import KeyManager.

Variable sha256 : bytes -> bytes.

(** [verify_key_fingerprint] in closed form. *)
Lemma verify_key_fingerprint_eq km u fp :
  verify_key_fingerprint km u fp =
  Ok match trusted_keys km !! u with
     | Some r =>
         if bool_decide (fp = fingerprint r) then
           (set_trusted_keys km
              (<[u := set_verified r true]> (trusted_keys km)), true)
         else (km, false)
     | None => (km, false)
     end.
Proof.
  unfold verify_key_fingerprint, getitem.
  destruct (trusted_keys km !! u) as [r|] eqn:Hu; simpl.
  - destruct (bool_decide (fp = fingerprint r)); reflexivity.
  - reflexivity.
Qed.

Lemma is_verified_add km now u k fp v :
  is_verified (add_trusted_key sha256 km now u k fp) v =
  if bool_decide (u = v) then false else is_verified km v.
Proof.
  unfold is_verified, add_trusted_key; simpl.
  case_bool_decide as Huv.
  - subst. by rewrite lookup_insert_eq.
  - by rewrite lookup_insert_ne.
Qed.

(** One operation changes the flag of [u] upwards only by a matching
    verification of [u], and downwards only by adding a key for [u]. *)
Lemma exec_flag km op u :
  is_verified km u ≠ is_verified (exec sha256 km op) u →
  if is_verified (exec sha256 km op) u then
    ∃ fp, op = OpVerify u fp ∧ stored_fingerprint_of km u = Some fp
  else adds_key_for u op = true.
Proof.
  destruct op as [now u' k fp'|u' fp'|now u']; simpl.
  - rewrite is_verified_add. case_bool_decide; [done|].
    intros Hne; by destruct Hne.
  - rewrite verify_key_fingerprint_eq.
    unfold is_verified, stored_fingerprint_of.
    destruct (trusted_keys km !! u') as [r|] eqn:Hu'.
    + case_bool_decide as Hfp; simpl.
      * destruct (decide (u' = u)) as [->|Hne].
        -- rewrite lookup_insert_eq, Hu'. simpl. intros _.
           exists fp'. by rewrite Hfp.
        -- rewrite lookup_insert_ne by done. intros Hc; by destruct Hc.
      * intros Hc; by destruct Hc.
    + intros Hc; by destruct Hc.
  - intros Hc; by destruct Hc.
Qed.

Lemma run_app km ops1 ops2 :
  run sha256 km (ops1 ++ ops2) = run sha256 (run sha256 km ops1) ops2.
Proof. unfold run. apply fold_left_app. Qed.

Lemma run_snoc km ops op :
  run sha256 km (ops ++ [op]) = exec sha256 (run sha256 km ops) op.
Proof. by rewrite run_app. Qed.

(** C5 (as amended).  Over any sequence of key-manager operations: if the
    [verified] flag of [u] is false at the start and true at the end, the
    sequence contains a [verify_key_fingerprint] call for [u] whose
    candidate equals the fingerprint stored at that moment; if it is true
    at the start and false at the end, the sequence contains an
    [add_trusted_key] call for [u], the only operation that resets it. *)
Theorem trust_flag_changes km ops u :
  is_verified km u ≠ is_verified (run sha256 km ops) u →
  if is_verified (run sha256 km ops) u then
    ∃ pre fp post,
      ops = pre ++ OpVerify u fp :: post
      ∧ stored_fingerprint_of (run sha256 km pre) u = Some fp
  else
    ∃ op, op ∈ ops ∧ adds_key_for u op = true.
Proof.
  induction ops as [|op ops IH] using rev_ind.
  - intros Hne. by destruct Hne.
  - rewrite run_snoc. set (st := run sha256 km ops) in *.
    intros Hne.
    destruct (decide (is_verified st u = is_verified (exec sha256 st op) u))
      as [Hsame|Hdiff].
    + rewrite <- Hsame in *. specialize (IH Hne).
      destruct (is_verified st u).
      * destruct IH as (pre & fp & post & -> & Hfp).
        exists pre, fp, (post ++ [op]). split; [|done].
        by rewrite <- app_assoc.
      * destruct IH as (op' & Hin & Hadd).
        exists op'. split; [|done]. apply elem_of_app; by left.
    + pose proof (exec_flag st op u Hdiff) as Hstep.
      destruct (is_verified (exec sha256 st op) u).
      * destruct Hstep as (fp & -> & Hfp).
        by exists ops, fp, [].
      * exists op. split; [|done]. apply elem_of_app; right.
        by apply list_elem_of_singleton.
Qed.

(** Without an [add_trusted_key] for [u] in the sequence, a verified
    record stays verified. *)
Lemma verified_kept_without_add km ops u :
  is_verified km u = true →
  Forall (fun op => adds_key_for u op = false) ops →
  is_verified (run sha256 km ops) u = true.
Proof.
  intros Hv. induction ops as [|op ops IH] using rev_ind; [done|].
  intros Hall. apply Forall_app in Hall as [Hops Hop].
  rewrite Forall_singleton in Hop.
  rewrite run_snoc. specialize (IH Hops).
  destruct (is_verified (exec sha256 (run sha256 km ops) op) u) eqn:Hend;
    [done|].
  assert (Hne : is_verified (run sha256 km ops) u
                ≠ is_verified (exec sha256 (run sha256 km ops) op) u)
    by (rewrite IH, Hend; done).
  pose proof (exec_flag _ _ _ Hne) as Hc. rewrite Hend in Hc.
  cbv beta in Hop. congruence.
Qed.


End TrustStore.

(** The flag of a record that was verified is reset when a key is added
    for the same user again: [add], [verify], [add]. *)
Lemma trust_flag_downgraded :
  let ops :=
    [KeyManager.OpAdd 100 "bob" "PEM-B" (Some "aa:bb");
     KeyManager.OpVerify "bob" "aa:bb"] in
  let km := KeyManager.run (fun b => b) KeyManager.init ops in
  KeyManager.is_verified km "bob" = true
  ∧ KeyManager.is_verified
      (KeyManager.exec (fun b => b) km
         (KeyManager.OpAdd 200 "bob" "PEM-B" (Some "aa:bb"))) "bob" = false.
Proof. vm_compute. split; reflexivity. Qed.

Lemma trust_flag_changes_witness :
  let ops :=
    [KeyManager.OpAdd 100 "bob" "PEM-B" (Some "aa:bb");
     KeyManager.OpVerify "bob" "aa:bb"] in
  ∃ pre fp post,
    ops = pre ++ KeyManager.OpVerify "bob" fp :: post
    ∧ KeyManager.stored_fingerprint_of
        (KeyManager.run (fun b => b) KeyManager.init pre) "bob" = Some fp.
Proof.
  exact (trust_flag_changes (fun b => b) KeyManager.init
           [KeyManager.OpAdd 100 "bob" "PEM-B" (Some "aa:bb");
            KeyManager.OpVerify "bob" "aa:bb"] "bob"
           ltac:(vm_compute; discriminate)).
Defined.

(** ** Envelope codec and ratchet *)

Ltac monad_unfold :=
  unfold mbind, M_bind, mbind_M, mret, M_ret, ret, liftR, raise, get,
         modify, try_except, lib, subscript in *.

Section EngineFacts.

Import Engine.

Context `{Crypto}.

Lemma ratchet_eq user ss w :
  _ratchet_keys user ss w =
  ({| self := set_session_keys
        (<[user := ratchet_state (session_keys (self w) !! user) ss]> (session_keys (self w))) (self w);
      calls := calls w |}, Ok tt).
Proof.
  unfold _ratchet_keys, get_self, modify_self, getitem. monad_unfold.
  destruct (session_keys (self w) !! user) as [st|] eqn:Hu; reflexivity.
Qed.

Lemma decrypt_message_cases env spk w :
  match open_envelope (self w) env with
  | None =>
      ∃ e, decrypt_message env spk w
           = (w, Raise (ValueErrorFrom decrypt_error_prefix e))
  | Some o =>
      let sig_ok :=
        check_signature (o_ciphertext o ++ o_iv o ++ o_hmac o)
                        (signature env) spk in
      decrypt_message env spk w =
      if negb (bool_decide (o_hmac o = expected_hmac o)) then
        (add_calls w (take 2 (decrypt_calls o sig_ok)),
         Raise IntegrityFailure)
      else if negb sig_ok then
        (add_calls w (take 3 (decrypt_calls o sig_ok)),
         Raise SignatureFailure)
      else
        match aes_gcm_decrypt (o_encryption_key o) (o_iv o) (o_hmac o)
                              (o_metadata o) (o_ciphertext o) with
        | None =>
            (add_calls w (decrypt_calls o sig_ok),
             Raise (ValueErrorFrom decrypt_error_prefix
                                   (LibraryError "decryptor")))
        | Some plaintext =>
            ((_ratchet_keys spk (o_shared_secret o)
                            (add_calls w (decrypt_calls o sig_ok))).1,
             match utf8_decode plaintext with
             | Some s => Ok s
             | None =>
                 Raise (ValueErrorFrom decrypt_error_prefix
                                       (LibraryError "decode"))
             end)
        end
  end.
Proof.
  unfold open_envelope, decrypt_message, ephemeral_private,
    verify_signature, log, get_self.
  monad_unfold.
  destruct (load_pem_public_key (encode (ephemeral_public_key env)))
    as [eph|]; simpl; [|by eexists].
  destruct (ephemeral_keys (self w)) as [[priv pub]|]; simpl;
    [|by eexists].
  destruct (ecdh_exchange priv eph) as [ss|]; simpl; [|by eexists].
  destruct (b64decode (salt env)) as [slt|]; simpl; [|by eexists].
  destruct (b64decode (ciphertext env)) as [ct|]; simpl; [|by eexists].
  destruct (b64decode (iv env)) as [nonce|]; simpl; [|by eexists].
  destruct (b64decode (hmac env)) as [mac|]; simpl; [|by eexists].
  destruct (b64decode (metadata env)) as [md|]; simpl; [|by eexists].
  unfold add_calls, decrypt_calls, expected_hmac; simpl.
  case_bool_decide as Hcmp; simpl;
    [|by rewrite <- !app_assoc].
  destruct (check_signature _ _ _); simpl;
    [|by rewrite <- !app_assoc].
  destruct (aes_gcm_decrypt _ _ _ _ _) as [pl|]; simpl;
    [|by rewrite <- !app_assoc].
  rewrite !ratchet_eq; simpl. rewrite <- !app_assoc; simpl.
  by destruct (utf8_decode pl).
Qed.

(** C2.  For every envelope, the calls that [decrypt_message] makes to the
    authenticity and cipher primitives are a prefix of the fixed sequence
    MAC, MAC comparison, signature verification, AES-GCM decryption.  If
    the recomputed MAC over ciphertext ++ iv ++ metadata differs from the
    envelope's one, the result is [IntegrityFailure], only the two MAC
    calls are made (no signature check, no decryption) and the engine is
    unchanged.  The signature is checked only after the MACs have been
    found equal, decryption is reached only after the signature has
    verified, and a returned plaintext implies that both checks passed.
    When a step before the checks raises, no call is made at all. *)
Theorem decrypt_checks_in_order env spk w :
  ∃ w' r,
    decrypt_message env spk w = (w', r)
    ∧ match open_envelope (self w) env with
      | None =>
          w' = w ∧ ∃ e, r = Raise (ValueErrorFrom decrypt_error_prefix e)
      | Some o =>
          let sig_ok :=
            check_signature (o_ciphertext o ++ o_iv o ++ o_hmac o)
                            (signature env) spk in
          (o_hmac o ≠ expected_hmac o →
           r = Raise IntegrityFailure
           ∧ w' = add_calls w (take 2 (decrypt_calls o sig_ok)))
          ∧ (∀ pt, r = Ok pt →
             o_hmac o = expected_hmac o ∧ sig_ok = true
             ∧ calls w' = calls w ++ decrypt_calls o true)
          ∧ (∃ n, calls w' = calls w ++ take n (decrypt_calls o sig_ok)
                  ∧ (3 ≤ n → o_hmac o = expected_hmac o)%nat
                  ∧ (4 ≤ n → sig_ok = true)%nat)
      end.
Proof.
  pose proof (decrypt_message_cases env spk w) as Hc.
  destruct (open_envelope (self w) env) as [o|].
  - cbv zeta in Hc. rewrite Hc. clear Hc.
    set (sig_ok := check_signature _ _ _).
    case_bool_decide as Hmac; simpl.
    + destruct sig_ok eqn:Hsig; simpl.
      * destruct (aes_gcm_decrypt _ _ _ _ _) as [pl|]; simpl.
        -- rewrite ratchet_eq; simpl.
           eexists _, _. split; [reflexivity|]. split_and!.
           ++ done.
           ++ intros pt _. done.
           ++ exists 4%nat. simpl. done.
        -- eexists _, _. split; [reflexivity|]. split_and!.
           ++ done.
           ++ intros pt [=].
           ++ exists 4%nat. done.
      * eexists _, _. split; [reflexivity|]. split_and!.
        -- done.
        -- intros pt [=].
        -- exists 3%nat. split_and!; [done|done|lia].
    + eexists _, _. split; [reflexivity|]. split_and!.
      * done.
      * intros pt [=].
      * exists 2%nat. split_and!; [done|lia|lia].
  - destruct Hc as [e ->]. eexists _, _. split; [reflexivity|]. eauto.
Qed.

(** C1 (defect).  With a BLAKE2b digest of the requested 32 bytes and an
    AES-GCM that accepts no tag longer than 16 bytes, decrypting an
    envelope made by [encrypt_message] never returns the message: it
    raises, whatever the keys of the two engines are.  The envelope either
    fails one of the two checks or reaches AES-GCM with the 32-byte MAC in
    the place of the tag. *)
Theorem round_trip_raises ent m rpem wA wA' env spem wB :
  blake2b_digest_size → gcm_tag_at_most_16 →
  encrypt_message ent m rpem wA = (wA', Ok env) →
  ∃ e, (decrypt_message env spem wB).2 = Raise e.
Proof.
  intros Hb Hg _. pose proof (decrypt_message_cases env spem wB) as Hc.
  destruct (open_envelope (self wB) env) as [o|].
  - cbv zeta in Hc. rewrite Hc. clear Hc.
    case_bool_decide as Hmac; simpl; [|by eexists].
    destruct (check_signature _ _ _); simpl; [|by eexists].
    assert (Htag : (16 < length (o_hmac o))%nat).
    { rewrite Hmac. unfold expected_hmac. rewrite Hb. lia. }
    rewrite (Hg _ _ _ _ _ Htag). by eexists.
  - destruct Hc as [e ->]. by eexists.
Qed.

(** [_ratchet_keys] never raises.  For a peer without state it stores
    send chain key = receive chain key = the shared secret and counter 0.
    For a peer with a state it derives 64 bytes with HKDF from the current
    send chain key, stores the first 32 as the new send chain key and the
    rest as the new receive chain key, and adds one to the counter.  The
    states of other peers, the keys of the engine and the call log are
    unchanged. *)
Lemma ratchet_keys_transition user ss w :
  ∃ w',
    _ratchet_keys user ss w = (w', Ok tt)
    ∧ session_keys (self w') !! user =
      Some match session_keys (self w) !! user with
           | None =>
               {| chain_key_send := ss; chain_key_receive := ss;
                  message_number := 0 |}
           | Some st =>
               let new_key_material :=
                 hkdf_derive SHA256 64 None info_ratchet
                             (chain_key_send st) in
               {| chain_key_send := take 32 new_key_material;
                  chain_key_receive := drop 32 new_key_material;
                  message_number := message_number st + 1 |}
           end
    ∧ (∀ other, other ≠ user →
         session_keys (self w') !! other = session_keys (self w) !! other)
    ∧ identity_keys (self w') = identity_keys (self w)
    ∧ ephemeral_keys (self w') = ephemeral_keys (self w)
    ∧ calls w' = calls w.
Proof.
  rewrite ratchet_eq. eexists. split; [reflexivity|]. simpl.
  split_and!; try done.
  - rewrite lookup_insert_eq. by destruct (session_keys (self w) !! user).
  - intros other Hne. by rewrite lookup_insert_ne.
Qed.

Lemma decrypt_raises env spk w :
  blake2b_digest_size → gcm_tag_at_most_16 →
  ∃ w' e, decrypt_message env spk w = (w', Raise e) ∧ self w' = self w.
Proof.
  intros Hb Hg. pose proof (decrypt_message_cases env spk w) as Hc.
  destruct (open_envelope (self w) env) as [o|].
  - cbv zeta in Hc. rewrite Hc. clear Hc.
    case_bool_decide as Hmac; simpl; [|by eexists _, _].
    destruct (check_signature _ _ _); simpl; [|by eexists _, _].
    assert (Htag : (16 < length (o_hmac o))%nat).
    { rewrite Hmac. unfold expected_hmac. rewrite Hb. lia. }
    rewrite (Hg _ _ _ _ _ Htag). by eexists _, _.
  - destruct Hc as [e ->]. by eexists _, _.
Qed.



Lemma generate_ephemeral_keypair_eq ent w :
  generate_ephemeral_keypair ent w =
  match security_params !! security_level (self w) with
  | Some params =>
      let priv := gen_ec ent (ec_curve params) in
      (with_self w (set_ephemeral_keys (Some (priv, ec_public_key priv))
                                       (self w)), Ok tt)
  | None => (w, Raise (KeyError "security_level"))
  end.
Proof.
  unfold generate_ephemeral_keypair, lookup_params, get_self, modify_self.
  monad_unfold.
  by destruct (security_params !! security_level (self w)).
Qed.

Lemma derive_shared_secret_eq pem w :
  derive_shared_secret pem w =
  (w, match load_pem_public_key (encode pem), ephemeral_keys (self w) with
      | Some peer, Some kp =>
          match ecdh_exchange kp.1 peer with
          | Some raw =>
              Ok (hkdf_derive SHA256 32 None info_key_derivation raw)
          | None =>
              Raise (ValueErrorFrom
                       "RiMayTik: Ошибка вычисления общего секрета: "
                       (LibraryError "exchange"))
          end
      | Some _, None =>
          Raise (ValueErrorFrom
                   "RiMayTik: Ошибка вычисления общего секрета: "
                   (TypeError "'NoneType' object is not subscriptable"))
      | None, _ =>
          Raise (ValueErrorFrom
                   "RiMayTik: Ошибка вычисления общего секрета: "
                   (LibraryError "load_pem_public_key"))
      end).
Proof.
  unfold derive_shared_secret, ephemeral_private, get_self. monad_unfold.
  destruct (load_pem_public_key (encode pem)); simpl; [|done].
  destruct (ephemeral_keys (self w)) as [kp|]; simpl; [|done].
  by destruct (ecdh_exchange kp.1 _).
Qed.

Lemma sign_data_eq ent dat w :
  sign_data ent dat w =
  match identity_keys (self w) with
  | Some kp =>
      (add_calls w [CallSign dat], Ok (b64encode (rsa_sign_pss kp.1 dat)))
  | None =>
      match security_params !! security_level (self w) with
      | Some params =>
          let priv := gen_rsa ent (rsa_key_size params) in
          (add_calls
             (with_self w (set_identity_keys
                             (Some (priv, rsa_public_key priv)) (self w)))
             [CallSign dat],
           Ok (b64encode (rsa_sign_pss priv dat)))
      | None => (w, Raise (KeyError "security_level"))
      end
  end.
Proof.
  unfold sign_data, generate_identity_keypair, lookup_params, log,
    get_self, modify_self.
  monad_unfold.
  destruct (identity_keys (self w)) as [kp|] eqn:Hid; simpl.
  - by rewrite Hid.
  - by destruct (security_params !! security_level (self w)).
Qed.

(** C6.  In every envelope returned by [encrypt_message], the encryption
    key is the first 32 bytes and the MAC key the remaining bytes of one
    HKDF-SHA512 output (two disjoint slices of the key material); the [hmac]
    field is the BLAKE2b MAC under the MAC key of ciphertext ++ iv ++
    metadata; the [signature] field is the RSA-PSS signature, under the
    identity private key that the engine holds after the call (the one it
    held before, if it had one), of ciphertext ++ iv ++ mac. *)
Theorem envelope_mac_and_signature ent m rpem w w' env :
  encrypt_message ent m rpem w = (w', Ok env) →
  ∃ shared_secret ct tag sk pk,
    let salt_bytes := urandom ent 16 in
    let nonce := urandom ent 12 in
    let key_material :=
      hkdf_derive SHA512 64 (Some salt_bytes) info_message_encryption
                  shared_secret in
    let encryption_key := take 32 key_material in
    let mac_key := drop 32 key_material in
    let md :=
      encode (json_dumps_metadata "RiMayTik" (time_metadata ent)
                                  (security_level (self w))) in
    let mac := blake2b (ct ++ nonce ++ md) mac_key 32 in
    encryption_key ++ mac_key = key_material
    ∧ aes_gcm_encrypt encryption_key nonce md (encode m) = Some (ct, tag)
    ∧ ciphertext env = b64encode ct
    ∧ iv env = b64encode nonce
    ∧ salt env = b64encode salt_bytes
    ∧ metadata env = b64encode md
    ∧ hmac env = b64encode mac
    ∧ identity_keys (self w') = Some (sk, pk)
    ∧ (identity_keys (self w) = None
       ∨ identity_keys (self w) = Some (sk, pk))
    ∧ signature env = b64encode (rsa_sign_pss sk (ct ++ nonce ++ mac))
    ∧ calls w' =
      calls w ++ [CallAeadEncrypt encryption_key nonce md (encode m);
                  CallMac mac_key (ct ++ nonce ++ md);
                  CallSign (ct ++ nonce ++ mac)].
Proof.
  unfold encrypt_message. monad_unfold.
  rewrite generate_ephemeral_keypair_eq.
  destruct (security_params !! security_level (self w)) as [params|] eqn:Hp;
    [|discriminate].
  cbv beta iota zeta. rewrite derive_shared_secret_eq. simpl.
  destruct (load_pem_public_key (encode rpem)) as [peer|]; [|discriminate].
  destruct (ecdh_exchange _ peer) as [raw|]; [|discriminate].
  unfold get_self, log. monad_unfold. simpl.
  destruct (aes_gcm_encrypt _ _ _ _) as [[ct tag]|] eqn:Henc; simpl;
    [|discriminate].
  rewrite sign_data_eq. simpl.
  destruct (identity_keys (self w)) as [[sk pk]|] eqn:Hid; simpl.
  - intros [= <- <-]. simpl.
    exists (hkdf_derive SHA256 32 None info_key_derivation raw), ct, tag,
      sk, pk.
    simpl. rewrite take_drop, <- !app_assoc.
    split_and!; try done. by right.
  - rewrite Hp. simpl.
    intros [= <- <-]. simpl.
    eexists (hkdf_derive SHA256 32 None info_key_derivation raw), ct, tag,
      _, _.
    simpl. rewrite take_drop, <- !app_assoc.
    split_and!; try done. by left.
Qed.
End EngineFacts.

(** ** Session tokens *)

Section SessionFacts.

Import Database Server.

Context `{Libs}.

Lemma find_snoc {A} (f : A → bool) l r :
  (∀ x, x ∈ l → f x = false) →
  find f (l ++ [r]) = if f r then Some r else None.
Proof.
  intros Hall. induction l as [|x l IH]; simpl; [done|].
  rewrite (Hall x) by (by left). apply IH. intros y Hy. apply Hall.
  by right.
Qed.

Lemma find_snoc_false {A} (f : A → bool) l r :
  f r = false → find f (l ++ [r]) = find f l.
Proof.
  intros Hr. induction l as [|x l IH]; simpl; [by rewrite Hr|].
  by destruct (f x).
Qed.

Lemma NoDup_snoc {A} (l : list A) x : NoDup l → x ∉ l → NoDup (l ++ [x]).
Proof.
  intros Hl Hx. apply NoDup_app. split; [done|]. split.
  - intros y Hy ->%list_elem_of_singleton. done.
  - apply NoDup_singleton.
Qed.

Lemma has_token_elem d t :
  has_token d t = true
  ↔ t ∈ map s_session_token (rimaytik_security_sessions d).
Proof.
  unfold has_token. rewrite existsb_exists. split.
  - intros (r & Hin & Heq). apply String.eqb_eq in Heq. subst.
    apply list_elem_of_fmap. exists r. split; [done|].
    by apply list_elem_of_In.
  - intros (r & -> & Hin)%list_elem_of_fmap. exists r.
    split; [by apply list_elem_of_In|]. apply String.eqb_refl.
Qed.

Lemma find_unique (now : Z) (l : list SessionRow) row :
  NoDup (map s_session_token l) → row ∈ l →
  find (session_matches now (s_session_token row)) l =
  if s_active row && (now * 1000000 <? s_expires_at row)
  then Some row else None.
Proof.
  induction l as [|r l IH]; intros Hnd Hin.
  - by apply elem_of_nil in Hin.
  - simpl in Hnd. apply NoDup_cons in Hnd as [Hnotin Hnd].
    apply elem_of_cons in Hin as [->|Hin].
    + simpl. unfold session_matches at 1. rewrite String.eqb_refl. simpl.
      destruct (s_active r && (now * 1000000 <? s_expires_at r)) eqn:Hlive;
        [done|].
      clear IH. induction l as [|r' l IH]; [done|].
      simpl. unfold session_matches at 1.
      destruct (String.eqb_spec (s_session_token r') (s_session_token r)) as [Heq|Hne].
      * exfalso. apply Hnotin. simpl. rewrite Heq. apply elem_of_cons; by left.
      * simpl. apply IH.
        -- intros Hin. apply Hnotin. simpl. apply elem_of_cons; by right.
        -- by apply NoDup_cons in Hnd as [_ ?].
    + simpl. unfold session_matches at 1.
      destruct (String.eqb_spec (s_session_token r) (s_session_token row)) as [Heq|Hne].
      * exfalso. apply Hnotin. rewrite Heq. apply list_elem_of_fmap. eauto.
      * simpl. by apply IH.
Qed.

Lemma validate_stored_session now d row :
  unique_tokens d →
  row ∈ rimaytik_security_sessions d →
  validate_rimaytik_session now (s_session_token row) d =
  if s_active row && (now * 1000000 <? s_expires_at row)
  then Some (s_user_id row) else None.
Proof.
  intros Hu Hin. unfold validate_rimaytik_session.
  rewrite (find_unique now _ row Hu Hin).
  by destruct (s_active row && (now * 1000000 <? s_expires_at row)).
Qed.

Lemma fresh_token_rows d t r :
  has_token d t = false → r ∈ rimaytik_security_sessions d →
  String.eqb (s_session_token r) t = false.
Proof.
  intros Ht Hr. destruct (String.eqb_spec (s_session_token r) t); [|done].
  exfalso. apply not_true_iff_false in Ht. apply Ht.
  apply has_token_elem. subst. apply list_elem_of_fmap. eauto.
Qed.

Lemma create_session_eq now local_now uid t dev ip hours d :
  create_rimaytik_session now local_now uid t dev ip hours d =
  if has_token d t then
    (d, Raise (IntegrityError "rimaytik_security_sessions.session_token"))
  else
    (set_sessions
       (rimaytik_security_sessions d ++
          [{| s_user_id := uid; s_session_token := t;
              s_device_info := dev; s_ip_address := ip;
              s_created_at := now;
              s_expires_at := local_now + hours * 3600 * 1000000;
              s_active := true |}]) d,
     Ok t).
Proof.
  unfold create_rimaytik_session. monad_unfold.
  by destruct (has_token d t).
Qed.

Lemma validate_after_create now local_now uid t dev ip hours d utc :
  has_token d t = false →
  validate_rimaytik_session utc t
    (create_rimaytik_session now local_now uid t dev ip hours d).1
  = if utc * 1000000 <? local_now + hours * 3600 * 1000000
    then Some uid else None.
Proof.
  intros Ht. rewrite create_session_eq, Ht.
  unfold validate_rimaytik_session. simpl. rewrite find_snoc.
  - unfold session_matches. simpl. rewrite String.eqb_refl. simpl.
    by destruct (utc * 1000000 <? _).
  - intros r Hr. unfold session_matches.
    by rewrite (fresh_token_rows d t r Ht Hr).
Qed.

Lemma unique_after_create now local_now uid t dev ip hours d :
  unique_tokens d → has_token d t = false →
  unique_tokens
    (create_rimaytik_session now local_now uid t dev ip hours d).1.
Proof.
  intros Hu Ht. rewrite create_session_eq, Ht.
  unfold unique_tokens. simpl. rewrite map_app. simpl.
  apply NoDup_snoc; [done|]. intros Hin.
  apply has_token_elem in Hin. congruence.
Qed.

(** C8.  A token issued by [create_rimaytik_session] for [hours] hours,
    on a server whose local time is [utc_offset] seconds away from UTC,
    is accepted by [validate_rimaytik_session], [later] seconds after it
    was issued, exactly when [later] is below [hours * 3600 + utc_offset]
    (or equal to it, when the time of issue has microseconds): the
    lifetime is the one asked for only at UTC.  On every stored row,
    [validate_rimaytik_session] does check the active flag and compares
    [expires_at] as stored with the UTC clock. *)
Theorem session_lifetime_shifted env uid t dev ip hours d :
  unique_tokens d → has_token d t = false → clock_ok env →
  let d' := (create_rimaytik_session (now env) (datetime_now env)
               uid t dev ip hours d).1 in
  (∀ later,
     validate_rimaytik_session (now env + later) t d'
     = if (later <? hours * 3600 + utc_offset env)
          || ((later =? hours * 3600 + utc_offset env)
              && (0 <? micros env))
       then Some uid else None)
  ∧ (∀ utc row,
       row ∈ rimaytik_security_sessions d' →
       validate_rimaytik_session utc (s_session_token row) d'
       = if s_active row && (utc * 1000000 <? s_expires_at row)
         then Some (s_user_id row) else None).
Proof.
  intros Hu Ht (_ & Hm0 & Hm1) d'. split.
  - intros later. unfold d'. rewrite validate_after_create by done.
    unfold datetime_now.
    destruct (Z.ltb_spec ((now env + later) * 1000000)
                ((now env + utc_offset env) * 1000000 + micros env
                 + hours * 3600 * 1000000)) as [Hlt|Hge];
      destruct (Z.ltb_spec later (hours * 3600 + utc_offset env));
      destruct (Z.eqb_spec later (hours * 3600 + utc_offset env));
      destruct (Z.ltb_spec 0 (micros env)); simpl; try done; lia.
  - intros utc row Hin. apply validate_stored_session; [|done].
    by apply unique_after_create.
Qed.

End SessionFacts.

(** ** Connection registry and relay *)

Section ServerFacts.

Import Protocol Database Server.

Context `{Libs}.

(** C10.  A registration request whose password has fewer than 8
    characters is answered with an error message, and the database, the
    connection registry, the online set and the transports are left as
    they were: no account-store method is run. *)
Theorem short_password_rejected env dat writer ip w p :
  reg_password dat = Some p →
  (py_len p < 8)%nat →
  ∃ reply,
    handle_rimaytik_register env dat writer ip w = (w, Ok reply)
    ∧ type reply = RIMAYTIK_ERROR
    ∧ ∃ text, data reply = [("error", JStr text)].
Proof.
  intros Hp Hlen. unfold handle_rimaytik_register. rewrite Hp.
  destruct (reg_username dat) as [u|]; [|by eexists; eauto].
  destruct (reg_public_key dat) as [k|]; [|by eexists; eauto].
  destruct (negb _); [by eexists; eauto|].
  apply Nat.ltb_lt in Hlen. rewrite Hlen.
  by eexists; eauto.
Qed.

(** C4 (defect).  For a username with an entry in [clients],
    [handle_user_logout] removes the entry and the name from the online
    set and then raises [AttributeError] at [self.cursor]: the user's row
    is not marked offline and nothing is broadcast. *)
Theorem handle_user_logout_raises env u w :
  is_Some (clients (server w) !! u) →
  ∃ w',
    handle_user_logout env (Some u) w =
      (w', Raise (AttributeError "RiMayTikServer" "cursor"))
    ∧ clients (server w') = delete u (clients (server w))
    ∧ online_users (server w') = online_users (server w) ∖ {[u]}
    ∧ db (server w') = db (server w)
    ∧ wire w' = wire w.
Proof.
  intros Hin. unfold handle_user_logout, get_server, modify_server.
  monad_unfold. rewrite bool_decide_true by done.
  eexists. split; [reflexivity|]. done.
Qed.


End ServerFacts.

(** ** Runs on concrete inputs *)

(** The stand-ins have the two library facts. *)
Lemma toy_blake2b_digest_size : @Engine.blake2b_digest_size Toy.toy_crypto.
Proof.
  intros dat key.
  change (length (Toy.toy_blake2b dat key 32) = 32%nat).
  unfold Toy.toy_blake2b, Toy.stretch.
  by rewrite length_map, length_seq.
Qed.

Lemma toy_gcm_tag_at_most_16 : @Engine.gcm_tag_at_most_16 Toy.toy_crypto.
Proof.
  intros key nonce tag aad ct Hlen. simpl. unfold Toy.toy_gcm_decrypt.
  case_bool_decide as Htag; [|done].
  rewrite Htag in Hlen. unfold Toy.toy_tag in Hlen.
  rewrite repeat_length in Hlen. lia.
Qed.

(** On the keys and the message of the runs below the stand-ins behave as
    the real functions do. *)
Example stand_ins_on_hello :
  Toy.toy_ecdh 6 (Toy.ECPub (Toy.dh_public 15))
  = Toy.toy_ecdh 15 (Toy.ECPub (Toy.dh_public 6))
  ∧ match Toy.toy_gcm_encrypt [x01] [x02] [x03] (encode "hello") with
    | Some (ct, tag) =>
        Toy.toy_gcm_decrypt [x01] [x02] tag [x03] ct = Some (encode "hello")
        ∧ Toy.toy_gcm_decrypt [x01] [x02] (tag ++ tag) [x03] ct = None
    | None => False
    end
  ∧ Toy.toy_verify (Toy.RSAPub 7) (Toy.toy_sign 7 [x0a; x0b]) [x0a; x0b]
    = true
  ∧ Toy.toy_verify (Toy.RSAPub 8) (Toy.toy_sign 7 [x0a; x0b]) [x0a; x0b]
    = false.
Proof. vm_compute. repeat split; reflexivity. Qed.

Lemma hello_envelope_ok :
  Engine.encrypt_message Toy.alice_entropy "hello" Toy.bob_public_pem
                         Toy.alice
  = (Toy.hello_envelope.1, Ok Toy.hello).
Proof.
  change (Toy.hello_envelope = (Toy.hello_envelope.1, Ok Toy.hello)).
  assert (∃ e, Toy.hello_envelope.2 = Ok e) as [e He]
    by (vm_compute; eauto).
  unfold Toy.hello. rewrite He.
  rewrite (surjective_pairing Toy.hello_envelope) at 1. by rewrite He.
Qed.

(** Bob decrypts the envelope that Alice made for him from ["hello"]:
    the call raises. *)
Lemma round_trip_raises_witness :
  ∃ e, (Engine.decrypt_message Toy.hello Toy.alice_identity_pem Toy.bob).2
       = Raise e.
Proof.
  exact (round_trip_raises Toy.alice_entropy "hello" Toy.bob_public_pem
           Toy.alice Toy.hello_envelope.1 Toy.hello
           Toy.alice_identity_pem Toy.bob
           toy_blake2b_digest_size toy_gcm_tag_at_most_16
           hello_envelope_ok).
Defined.

(** On that run the two sides derive different MAC keys (HKDF of the
    exchanged secret on one side, the exchanged secret itself on the
    other), so it already stops at the integrity check, after the two MAC
    calls. *)
Example hello_stops_at_integrity_check :
  let run :=
    Engine.decrypt_message Toy.hello Toy.alice_identity_pem Toy.bob in
  run.2 = Raise Engine.IntegrityFailure
  ∧ length (Engine.calls run.1) = 2%nat.
Proof. vm_compute. split; reflexivity. Qed.

Lemma envelope_mac_and_signature_witness :
  ∃ ct mac : bytes,
    Engine.ciphertext Toy.hello = Engine.b64encode ct
    ∧ Engine.hmac Toy.hello = Engine.b64encode mac
    ∧ Engine.signature Toy.hello
      = Engine.b64encode
          (Engine.rsa_sign_pss (7 : @Engine.RSAPrivateKey Toy.toy_crypto)
             (ct ++ Engine.urandom Toy.alice_entropy 12 ++ mac)).
Proof.
  destruct (envelope_mac_and_signature Toy.alice_entropy "hello"
              Toy.bob_public_pem Toy.alice Toy.hello_envelope.1 Toy.hello
              hello_envelope_ok)
    as (ss & ct & tag & sk & pk & _ & _ & Hct & _ & _ & _ & Hmac & Hid & _
        & Hsig & _).
  vm_compute in Hid. injection Hid as <- _.
  eexists ct, _. split; [exact Hct|]. split; [exact Hmac|]. exact Hsig.
Defined.

(** The ratchet on Bob's engine: first call, then a second call. *)
Example ratchet_twice :
  let w1 := (Engine._ratchet_keys "PEM-A" [x01; x02] Toy.bob).1 in
  let w2 := (Engine._ratchet_keys "PEM-A" [x09] w1).1 in
  Engine.session_keys (Engine.self w1) !! "PEM-A"
  = Some (Engine.mkSession [x01; x02] [x01; x02] 0)
  ∧ Engine.message_number
      <$> Engine.session_keys (Engine.self w2) !! "PEM-A" = Some 1
  ∧ Engine.chain_key_send
      <$> Engine.session_keys (Engine.self w2) !! "PEM-A"
    = Some (take 32 (Toy.toy_hkdf Engine.SHA256 64 None Engine.info_ratchet
                       [x01; x02])).
Proof. vm_compute. done. Qed.

Lemma session_lifetime_shifted_witness :
  Database.validate_rimaytik_session
    (Server.now Sample.new_york_env) "tok-new"
    (Database.create_rimaytik_session (Server.now Sample.new_york_env)
       (Server.datetime_now Sample.new_york_env) 4 "tok-new" "dev" "ip" 1
       Toy.sample_sessions).1
  = None
  ∧ Database.validate_rimaytik_session
      (Server.now Sample.tokyo_env + 7200) "tok-new"
      (Database.create_rimaytik_session (Server.now Sample.tokyo_env)
         (Server.datetime_now Sample.tokyo_env) 4 "tok-new" "dev" "ip" 1
         Toy.sample_sessions).1
    = Some 4.
Proof.
  assert (Hu : Database.unique_tokens Toy.sample_sessions).
  { unfold Database.unique_tokens. simpl.
    by apply (bool_decide_unpack _); vm_compute. }
  split.
  - pose proof (proj1 (session_lifetime_shifted Sample.new_york_env 4
                         "tok-new" "dev" "ip" 1 Toy.sample_sessions Hu
                         eq_refl ltac:(vm_compute; intuition discriminate))
                  0) as Hv.
    rewrite Z.add_0_r in Hv. exact Hv.
  - exact (proj1 (session_lifetime_shifted Sample.tokyo_env 4
                    "tok-new" "dev" "ip" 1 Toy.sample_sessions Hu
                    eq_refl ltac:(vm_compute; intuition discriminate))
             7200).
Defined.

Lemma short_password_rejected_witness :
  ∃ reply,
    Server.handle_rimaytik_register Toy.toy_env
      (Toy.register_request "carol" "пароль7") 3%nat "10.0.0.3" Toy.world2
    = (Toy.world2, Ok reply)
    ∧ Protocol.type reply = Protocol.RIMAYTIK_ERROR
    ∧ ∃ text, Protocol.data reply = [("error", Protocol.JStr text)].
Proof.
  exact (short_password_rejected Toy.toy_env
           (Toy.register_request "carol" "пароль7") 3%nat "10.0.0.3"
           Toy.world2 "пароль7" eq_refl ltac:(vm_compute; lia)).
Defined.

(** Alice logs out of the server on which she and Bob are registered. *)
Lemma handle_user_logout_raises_witness :
  ∃ w',
    Server.handle_user_logout Toy.toy_env (Some "alice") Toy.world2 =
      (w', Raise (AttributeError "RiMayTikServer" "cursor"))
    ∧ Server.clients (Server.server w')
      = delete "alice" (Server.clients (Server.server Toy.world2))
    ∧ Server.online_users (Server.server w')
      = Server.online_users (Server.server Toy.world2) ∖ {["alice"]}
    ∧ Server.db (Server.server w') = Server.db (Server.server Toy.world2)
    ∧ Server.wire w' = Server.wire Toy.world2.
Proof.
  exact (handle_user_logout_raises Toy.toy_env "alice" Toy.world2
           ltac:(vm_compute; eauto)).
Defined.

(** After the failed logout Alice's row still says [online]. *)
Example logout_leaves_status_online :
  let w' :=
    (Server.handle_user_logout Toy.toy_env (Some "alice") Toy.world2).1 in
  Server.clients (Server.server w') !! "alice" = None
  ∧ map (fun r => (Database.u_username r, Database.u_status r))
        (Database.rimaytik_users (Server.db (Server.server w')))
    = [("alice", "online"); ("bob", "online")].
Proof. vm_compute. done. Qed.

(** Carol is not connected: the reply to a message for her promises a
    delivery at her next login, which is not a notice that the message
    will not be queued. *)
Lemma offline_reply_promises_delivery :
  Server.clients (Server.server Toy.world2) !! "carol" = None
  ∧ ∃ reply,
      (Server.handle_rimaytik_direct_message Toy.toy_env
         (Toy.direct_message "carol") Toy.world2).2 = Ok reply
      ∧ Server.promises_later_delivery reply
      ∧ ¬ Server.carries_not_queued_notice reply.
Proof.
  split; [by vm_compute|].
  eexists. split; [vm_compute; reflexivity|].
  assert (Hp : Server.promises_later_delivery
                 (Server.error_message Toy.toy_env 3
                    [("error", Protocol.JStr Server.recipient_offline_text);
                     ("message_id", Protocol.JStr "rimaytik_feedbeef");
                     ("suggestion",
                      Protocol.JStr Server.later_delivery_text)]))
    by (vm_compute; reflexivity).
  split; [exact Hp|]. intros (_ & _ & Hn). exact (Hn Hp).
Qed.


(** ** Engine: identity keys, signatures, effects on the state *)

Section EngineMoreFacts.

Import Engine EngineKeys.

Context `{KeyFiles}.

Lemma get_public_key_pem_eq ent w :
  get_public_key_pem ent w =
  match identity_keys (self w) with
  | Some kp => (w, Ok (public_bytes_pem kp.2))
  | None =>
      match security_params !! security_level (self w) with
      | Some params =>
          let priv := gen_rsa ent (rsa_key_size params) in
          (with_self w (set_identity_keys (Some (priv, rsa_public_key priv))
                                          (self w)),
           Ok (public_bytes_pem (rsa_public_key priv)))
      | None => (w, Raise (KeyError "security_level"))
      end
  end.
Proof.
  unfold get_public_key_pem, generate_identity_keypair, lookup_params,
    get_self, modify_self.
  monad_unfold.
  destruct (identity_keys (self w)) as [kp|] eqn:Hid; simpl.
  - rewrite Hid. by destruct w.
  - by destruct (security_params !! security_level (self w)).
Qed.

Lemma encrypt_keeps_session_keys ent m rpem w :
  session_keys (self (encrypt_message ent m rpem w).1)
  = session_keys (self w).
Proof.
  unfold encrypt_message. monad_unfold.
  rewrite generate_ephemeral_keypair_eq.
  destruct (security_params !! security_level (self w)) as [params|] eqn:Hp;
    [|done].
  cbv beta iota zeta. rewrite derive_shared_secret_eq. simpl.
  destruct (load_pem_public_key (encode rpem)) as [peer|]; [|done].
  destruct (ecdh_exchange _ peer) as [raw|]; [|done].
  unfold get_self, log. monad_unfold. simpl.
  destruct (aes_gcm_encrypt _ _ _ _) as [[ct tag]|]; simpl; [|done].
  rewrite sign_data_eq. simpl.
  destruct (identity_keys (self w)) as [kp|] eqn:Hid; simpl; [done|].
  by rewrite Hp.
Qed.

Lemma call_keeps_session_keys m w :
  blake2b_digest_size → gcm_tag_at_most_16 →
  session_keys (self (call m w)) = session_keys (self w).
Proof.
  intros Hb Hg. destruct m; simpl.
  - unfold generate_identity_keypair, lookup_params, get_self, modify_self.
    monad_unfold.
    by destruct (security_params !! security_level (self w)).
  - rewrite generate_ephemeral_keypair_eq.
    by destruct (security_params !! security_level (self w)).
  - rewrite get_public_key_pem_eq.
    destruct (identity_keys (self w)); [done|].
    by destruct (security_params !! security_level (self w)).
  - unfold get_ephemeral_public_key_pem, get_self. monad_unfold.
    destruct (ephemeral_keys (self w)) as [kp|] eqn:He; simpl.
    + by rewrite He.
    + rewrite generate_ephemeral_keypair_eq.
      by destruct (security_params !! security_level (self w)).
  - by rewrite derive_shared_secret_eq.
  - apply encrypt_keeps_session_keys.
  - destruct (decrypt_raises encrypted_data sender_public_key_pem w Hb Hg)
      as (w' & e & -> & Hs). simpl. by rewrite Hs.
  - rewrite sign_data_eq.
    destruct (identity_keys (self w)); [done|].
    by destruct (security_params !! security_level (self w)).
  - done.
  - unfold export_keys, get_self. monad_unfold.
    destruct (identity_keys (self w)) as [kp|] eqn:Hid; simpl; [|done].
    destruct (private_bytes_pkcs8 _ _); simpl; [|done].
    rewrite get_public_key_pem_eq, Hid. done.
  - unfold import_keys, modify_self. monad_unfold.
    destruct parsed as [kd|]; simpl; [|done].
    destruct (p_private_key kd); simpl; [|done].
    by destruct (load_pem_private_key _ _).
Qed.

(** C7 (defect).  With a BLAKE2b digest of the requested 32 bytes and an
    AES-GCM that accepts no tag longer than 16 bytes, [decrypt_message]
    raises on every envelope, so that its last step, the only call of
    [_ratchet_keys], is never reached.  No sequence of calls of the
    engine's methods therefore changes [session_keys]: on an engine that
    starts without ratchet state no peer's state is ever established,
    whatever key agreements succeed, and no counter is ever
    incremented. *)
Theorem ratchet_never_runs ms w :
  blake2b_digest_size → gcm_tag_at_most_16 →
  session_keys (self (call_all ms w)) = session_keys (self w)
  ∧ (session_keys (self w) = ∅ →
     ∀ peer, session_keys (self (call_all ms w)) !! peer = None)
  ∧ ∀ env spk, ∃ e, (decrypt_message env spk w).2 = Raise e.
Proof.
  intros Hb Hg.
  assert (Hall : session_keys (self (call_all ms w))
                 = session_keys (self w)).
  { revert w. induction ms as [|m ms IH]; intros w; [done|].
    simpl. rewrite IH. by apply call_keeps_session_keys. }
  split; [exact Hall|]. split.
  - intros Hempty peer. by rewrite Hall, Hempty.
  - intros env spk.
    destruct (decrypt_raises env spk w Hb Hg) as (w' & e & -> & _).
    by exists e.
Qed.


(** X2: a signature made by [sign_data] is accepted by
    [verify_signature] under the PEM that [get_public_key_pem] then
    returns, provided the library loads that PEM back, decodes its own
    base64 and verifies its own signature on this message. *)
Theorem sign_then_verify ent data w w1 sig sk pk :
  sign_data ent data w = (w1, Ok sig) →
  identity_keys (self w1) = Some (sk, pk) →
  signing_laws_at sk pk data →
  get_public_key_pem ent w1 = (w1, Ok (public_bytes_pem pk))
  ∧ verify_signature data sig (public_bytes_pem pk) w1
    = (add_calls w1 [CallVerify data true], Ok true).
Proof.
  intros Hs Hid (Hpem & Hb64 & Hver).
  rewrite get_public_key_pem_eq, Hid. split; [done|].
  assert (Hsig : sig = b64encode (rsa_sign_pss sk data)).
  { rewrite sign_data_eq in Hs.
    destruct (identity_keys (self w)) as [kp|] eqn:Hid0.
    - injection Hs as <- <-. simpl in Hid. rewrite Hid0 in Hid.
      by injection Hid as ->.
    - destruct (security_params !! security_level (self w)); [|done].
      cbv zeta in Hs. injection Hs as <- <-. simpl in Hid.
      by injection Hid as -> _. }
  unfold verify_signature, check_signature, log. monad_unfold.
  rewrite Hpem, Hsig, Hb64, Hver. reflexivity.
Qed.

(** X3: [encrypt_message], whether it returns or raises, leaves the
    ratchet table [session_keys] and the security level unchanged, and
    never replaces an identity key pair that exists. *)
Theorem encrypt_keeps_sessions_and_identity ent m rpem w :
  let w' := (encrypt_message ent m rpem w).1 in
  session_keys (self w') = session_keys (self w)
  ∧ security_level (self w') = security_level (self w)
  ∧ (∀ kp, identity_keys (self w) = Some kp →
           identity_keys (self w') = Some kp).
Proof.
  unfold encrypt_message. monad_unfold.
  rewrite generate_ephemeral_keypair_eq.
  destruct (security_params !! security_level (self w)) as [params|] eqn:Hp;
    [|done].
  cbv beta iota zeta. rewrite derive_shared_secret_eq. simpl.
  destruct (load_pem_public_key (encode rpem)) as [peer|]; [|done].
  destruct (ecdh_exchange _ peer) as [raw|]; [|done].
  unfold get_self, log. monad_unfold. simpl.
  destruct (aes_gcm_encrypt _ _ _ _) as [[ct tag]|]; simpl; [|done].
  rewrite sign_data_eq. simpl.
  destruct (identity_keys (self w)) as [kp|] eqn:Hid; simpl.
  - split_and!; try done. by intros ? [= <-].
  - rewrite Hp. simpl. split_and!; try done.
Qed.

(** X4: [encrypt_message] replaces the ephemeral key pair by a fresh one
    before anything can fail, so the pair is new even when the call
    raises; only an unknown security level stops it earlier, with the
    state untouched and the [KeyError] wrapped in the encryption error. *)
Theorem encrypt_replaces_ephemeral_keys ent m rpem w :
  let '(w', r) := encrypt_message ent m rpem w in
  match security_params !! security_level (self w) with
  | None =>
      w' = w
      ∧ r = Raise (ValueErrorFrom "RiMayTik: Ошибка шифрования: "
                                  (KeyError "security_level"))
  | Some params =>
      let priv := gen_ec ent (ec_curve params) in
      ephemeral_keys (self w') = Some (priv, ec_public_key priv)
  end.
Proof.
  unfold encrypt_message. monad_unfold.
  rewrite generate_ephemeral_keypair_eq.
  destruct (security_params !! security_level (self w)) as [params|] eqn:Hp;
    [|done].
  cbv beta iota zeta. rewrite derive_shared_secret_eq. simpl.
  destruct (load_pem_public_key (encode rpem)) as [peer|]; [|done].
  destruct (ecdh_exchange _ peer) as [raw|]; [|done].
  unfold get_self, log. monad_unfold. simpl.
  destruct (aes_gcm_encrypt _ _ _ _) as [[ct tag]|]; simpl; [|done].
  rewrite sign_data_eq. simpl.
  destruct (identity_keys (self w)) as [kp|] eqn:Hid; simpl.
  - done.
  - rewrite Hp. simpl. done.
Qed.

(** X5: on an engine that has no ephemeral key pair, [decrypt_message]
    raises the decryption [ValueError] and changes nothing: the cause is
    the failed load of the sender's ephemeral key, or else the subscript
    of [None]. *)
Theorem decrypt_needs_ephemeral_keys env spk w :
  ephemeral_keys (self w) = None →
  decrypt_message env spk w =
  (w, Raise (ValueErrorFrom decrypt_error_prefix
       match load_pem_public_key (encode (ephemeral_public_key env)) with
       | Some _ => TypeError "'NoneType' object is not subscriptable"
       | None => LibraryError "load_pem_public_key"
       end)).
Proof.
  intros Hk. unfold decrypt_message, ephemeral_private, get_self.
  monad_unfold.
  destruct (load_pem_public_key _); simpl; [|done].
  by rewrite Hk.
Qed.

(** X6: a [decrypt_message] that raises leaves the engine's fields as
    they were, unless what failed is the final UTF-8 decoding (the
    ratchet has then already advanced). *)
Theorem failed_decrypt_keeps_engine env spk w w' e :
  decrypt_message env spk w = (w', Raise e) →
  e ≠ ValueErrorFrom decrypt_error_prefix (LibraryError "decode") →
  self w' = self w.
Proof.
  intros Hd Hne. pose proof (decrypt_message_cases env spk w) as Hc.
  destruct (open_envelope (self w) env) as [o|].
  - cbv zeta in Hc. rewrite Hc in Hd. clear Hc.
    destruct (negb (bool_decide _)); [by injection Hd as <- _|].
    destruct (negb (check_signature _ _ _)); [by injection Hd as <- _|].
    destruct (aes_gcm_decrypt _ _ _ _ _); [|by injection Hd as <- _].
    destruct (utf8_decode _); [done|].
    injection Hd as _ <-. done.
  - destruct Hc as [e' He]. rewrite He in Hd. by injection Hd as <- _.
Qed.

Lemma ratchet_all_snoc user secrets s w :
  ratchet_all user (secrets ++ [s]) w
  = (_ratchet_keys user s (ratchet_all user secrets w)).1.
Proof. unfold ratchet_all. by rewrite fold_left_app. Qed.

Lemma ratchet_all_closed user s0 rest w :
  session_keys (self w) !! user = None →
  session_keys (self (ratchet_all user (s0 :: rest) w)) !! user
  = Some (Nat.iter (length rest) (fun st => ratchet_state (Some st) [])
                   (ratchet_state None s0)).
Proof.
  intros Hnone. induction rest as [|s rest IH] using rev_ind.
  - simpl. rewrite ratchet_eq. simpl. by rewrite lookup_insert_eq, Hnone.
  - rewrite app_comm_cons, ratchet_all_snoc, ratchet_eq.
    cbn [fst self session_keys set_session_keys].
    rewrite lookup_insert_eq, IH, length_app, Nat.add_comm. reflexivity.
Qed.

Lemma ratchet_iter_number n st :
  message_number (Nat.iter n (fun st => ratchet_state (Some st) []) st)
  = message_number st + Z.of_nat n.
Proof.
  induction n as [|n IH]; [simpl; lia|].
  rewrite Nat.iter_succ. unfold ratchet_state at 1.
  cbn [message_number]. rewrite IH. lia.
Qed.

(** X7: for a user without ratchet state, running [_ratchet_keys] on a
    list of secrets leaves [message_number] at the number of secrets
    after the first, and the resulting state depends on the first secret
    only: the later secrets are never used. *)
Theorem ratchet_counts_and_ignores_later_secrets user s0 rest rest' w :
  session_keys (self w) !! user = None →
  length rest = length rest' →
  message_number
    <$> session_keys (self (ratchet_all user (s0 :: rest) w)) !! user
  = Some (Z.of_nat (length rest))
  ∧ session_keys (self (ratchet_all user (s0 :: rest) w)) !! user
    = session_keys (self (ratchet_all user (s0 :: rest') w)) !! user.
Proof.
  intros Hnone Hlen. rewrite !ratchet_all_closed by done. split.
  - simpl. by rewrite ratchet_iter_number.
  - by rewrite Hlen.
Qed.

(** X8: [import_keys] either installs the loaded private key with its
    public key and the stored security level (2 when absent), touching
    nothing else, or raises the import [ValueError] and leaves the
    engine exactly as it was. *)
Theorem import_keys_atomic parsed password w :
  let '(w', r) := import_keys parsed password w in
  match r with
  | Ok _ =>
      ∃ keys_data private_key sk,
        parsed = Some keys_data
        ∧ p_private_key keys_data = Some private_key
        ∧ load_pem_private_key (encode private_key) (encode password)
          = Some sk
        ∧ identity_keys (self w') = Some (sk, rsa_public_key sk)
        ∧ security_level (self w')
          = default 2 (p_security_level keys_data)
        ∧ ephemeral_keys (self w') = ephemeral_keys (self w)
        ∧ session_keys (self w') = session_keys (self w)
  | Raise e =>
      w' = w ∧ ∃ cause, e = ValueErrorFrom "RiMayTik: Ошибка импорта ключей: " cause
  end.
Proof.
  unfold import_keys, modify_self. monad_unfold.
  destruct parsed as [kd|]; simpl; [|eauto].
  destruct (p_private_key kd) as [pk|] eqn:Hpk; simpl; [|eauto].
  destruct (load_pem_private_key _ _) as [sk|] eqn:Hl; simpl; [|eauto].
  exists kd, pk, sk. done.
Qed.

(** X9: [export_keys] does not change an engine that has identity keys
    and writes its public PEM; when the library loads the exported
    private key under the given password, [import_keys] of the exported
    data on any engine installs that private key and the exporter's
    security level. *)
Theorem export_then_import ent now password w w1 kd sk pk password' w0 :
  export_keys ent now password w = (w1, Ok kd) →
  identity_keys (self w) = Some (sk, pk) →
  load_pem_private_key (encode (kd_private_key kd)) (encode password')
  = Some sk →
  w1 = w
  ∧ kd_public_key kd = public_bytes_pem pk
  ∧ ∃ w2,
      import_keys (Some (parse_exported kd)) password' w0 = (w2, Ok tt)
      ∧ identity_keys (self w2) = Some (sk, rsa_public_key sk)
      ∧ security_level (self w2) = security_level (self w).
Proof.
  unfold export_keys, get_self. monad_unfold. intros He Hid Hl.
  rewrite Hid in He. simpl in He.
  destruct (private_bytes_pkcs8 sk (encode password)) as [pem|]; [|done].
  simpl in He. rewrite get_public_key_pem_eq, Hid in He. simpl in He.
  injection He as <- <-. split; [by destruct w|]. split; [done|].
  unfold import_keys, modify_self. monad_unfold. simpl in *.
  rewrite Hl. simpl. eexists. split; [reflexivity|]. done.
Qed.

End EngineMoreFacts.

(** ** Trust store: fingerprints and records *)

Section TrustStoreMore.

Import KeyManager Fingerprint.

Variable sha256 : bytes → bytes.

Lemma hex2_chars b :
  forallb fingerprint_char (String.list_ascii_of_string (hex2 b)) = true.
Proof. by destruct b. Qed.

Lemma hex2_inj b b' : hex2 b = hex2 b' → b = b'.
Proof.
  intros Heq.
  cut (Byte.to_N b = Byte.to_N b').
  { intros Hn. pose proof (Byte.of_to_N b) as Hb.
    rewrite Hn, Byte.of_to_N in Hb. by injection Hb. }
  unfold hex2 in Heq. injection Heq as H1 H2.
  assert (Hd : ∀ n m, (n < 16)%N → (m < 16)%N →
                      hex_digit n = hex_digit m → n = m).
  { intros n m Hn Hm.
    assert (Hc : ∀ k, (k < 16)%N →
               N_of_ascii (hex_digit k)
               = if (k <? 10)%N then (48 + k)%N else (87 + k)%N).
    { intros k Hk. unfold hex_digit.
      destruct (k <? 10)%N eqn:E; rewrite N_ascii_embedding; lia. }
    intros Heq'. apply (f_equal N_of_ascii) in Heq'.
    rewrite !Hc in Heq' by done.
    destruct (N.ltb_spec n 10), (N.ltb_spec m 10); lia. }
  pose proof (Byte.to_N_bounded b). pose proof (Byte.to_N_bounded b').
  apply Hd in H1; [|apply N.Div0.div_lt_upper_bound; lia..].
  apply Hd in H2; [|apply N.mod_upper_bound; lia..].
  rewrite (N.div_mod (Byte.to_N b) 16), (N.div_mod (Byte.to_N b') 16) by lia.
  by rewrite H1, H2.
Qed.

Lemma join_colon_cons b c l :
  join_colon (map hex2 (b :: c :: l))
  = String (hex_digit (Byte.to_N b / 16))
      (String (hex_digit (Byte.to_N b mod 16))
         (String ":" (join_colon (map hex2 (c :: l))))).
Proof. reflexivity. Qed.

Lemma join_colon_length l :
  String.length (join_colon (map hex2 l)) = (3 * length l - 1)%nat.
Proof.
  induction l as [|b [|c l] IH]; [done..|].
  rewrite join_colon_cons. cbn [String.length]. rewrite IH.
  cbn [length]. lia.
Qed.

Lemma join_colon_chars l :
  forallb fingerprint_char
          (String.list_ascii_of_string (join_colon (map hex2 l))) = true.
Proof.
  induction l as [|b [|c l] IH]; [done|apply hex2_chars|].
  rewrite join_colon_cons. pose proof (hex2_chars b) as Hb.
  unfold hex2 in Hb. cbn [String.list_ascii_of_string forallb] in *.
  apply andb_true_iff in Hb as [H1 Hb].
  apply andb_true_iff in Hb as [H2 _].
  rewrite H1, H2, IH. done.
Qed.

Lemma join_colon_inj l l' :
  join_colon (map hex2 l) = join_colon (map hex2 l') → l = l'.
Proof.
  revert l'. induction l as [|b [|c l] IH]; intros [|b' [|c' l']] Heq;
    try done; rewrite ?join_colon_cons in Heq;
    try (by cbn in Heq; unfold hex2 in Heq; simplify_eq).
  - f_equal. by apply hex2_inj.
  - injection Heq as H1 H2 Heq. f_equal; [|by apply IH].
    apply hex2_inj. unfold hex2. by rewrite H1, H2.
Qed.

(** X10: when the digest has at least 16 bytes, [calculate_fingerprint]
    returns 47 characters, all of them lowercase hexadecimal digits or
    colons, and two keys have the same fingerprint exactly when the
    first 16 bytes of their digests agree. *)
Theorem fingerprint_format pem :
  (16 ≤ length (sha256 (encode pem)))%nat →
  String.length (calculate_fingerprint sha256 pem) = 47%nat
  ∧ forallb fingerprint_char
      (String.list_ascii_of_string (calculate_fingerprint sha256 pem))
    = true
  ∧ ∀ pem',
      calculate_fingerprint sha256 pem' = calculate_fingerprint sha256 pem
      ↔ firstn 16 (sha256 (encode pem')) = firstn 16 (sha256 (encode pem)).
Proof.
  intros Hlen. unfold calculate_fingerprint. split_and!.
  - rewrite join_colon_length, length_take. lia.
  - apply join_colon_chars.
  - intros pem'. split; [apply join_colon_inj|by intros ->].
Qed.

(** X11: after [add_trusted_key], the status of the user is unverified
    at level medium with the given fingerprint, or the calculated one
    when none or an empty one was given; [verify_key_fingerprint] then
    answers [True] exactly for that fingerprint, after which the status
    is verified at level high and the key is the one added; a [False]
    answer changes nothing. *)
Theorem add_then_verify km now u k fp fp' now' :
  let km1 := add_trusted_key sha256 km now u k fp in
  let stored := or_else fp (calculate_fingerprint sha256 k) in
  get_security_status km1 now' u
  = Ok (HasKey false stored (now' - now) "medium")
  ∧ ∃ km2 b,
      verify_key_fingerprint km1 u fp' = Ok (km2, b)
      ∧ (b = true ↔ fp' = stored)
      ∧ (b = false → km2 = km1)
      ∧ (b = true →
         get_security_status km2 now' u
         = Ok (HasKey true stored (now' - now) "high")
         ∧ key <$> trusted_keys km2 !! u = Some k).
Proof.
  intros km1 stored.
  assert (Hl : trusted_keys km1 !! u
               = Some {| key := k; fingerprint := stored; added_at := now;
                         verified := false |}).
  { unfold km1, add_trusted_key. simpl. by rewrite lookup_insert_eq. }
  split.
  - unfold get_security_status, getitem. rewrite Hl.
    rewrite bool_decide_eq_true_2 by eauto. done.
  - unfold verify_key_fingerprint, getitem. rewrite Hl.
    rewrite bool_decide_eq_true_2 by eauto. simpl.
    case_bool_decide as Hfp.
    + eexists _, true. split; [reflexivity|]. split; [done|].
      split; [done|]. intros _.
      unfold get_security_status, getitem. simpl.
      rewrite lookup_insert_eq.
      rewrite bool_decide_eq_true_2 by eauto. done.
    + eexists _, false. split; [reflexivity|]. split; [|done].
      split; [done|]. by intros ->.
Qed.

Lemma exec_frame km op u :
  op_user op ≠ u →
  trusted_keys (exec sha256 km op) !! u = trusted_keys km !! u.
Proof.
  intros Hne. destruct op as [now u' k fp|u' fp|now u']; simpl in *.
  - by rewrite lookup_insert_ne.
  - unfold verify_key_fingerprint, getitem.
    case_bool_decide as Hs; [|done].
    destruct Hs as [r Hr]. rewrite Hr. simpl.
    case_bool_decide; [|done]. simpl. by rewrite lookup_insert_ne.
  - done.
Qed.

Lemma exec_unused km op :
  key_verifications (exec sha256 km op) = key_verifications km
  ∧ key_expiry (exec sha256 km op) = key_expiry km.
Proof.
  destruct op as [now u' k fp|u' fp|now u']; simpl; [done| |done].
  unfold verify_key_fingerprint, getitem.
  case_bool_decide as Hs; [|done].
  destruct Hs as [r Hr]. rewrite Hr. simpl.
  by case_bool_decide.
Qed.

(** X12: operations of the key manager about other users leave the
    record of a user as it was, and no operation ever touches
    [key_verifications] or [key_expiry]. *)
Theorem other_users_untouched km ops u :
  Forall (fun op => op_user op ≠ u) ops →
  trusted_keys (run sha256 km ops) !! u = trusted_keys km !! u
  ∧ key_verifications (run sha256 km ops) = key_verifications km
  ∧ key_expiry (run sha256 km ops) = key_expiry km.
Proof.
  revert km. induction ops as [|op ops IH]; intros km Hall; [done|].
  apply Forall_cons in Hall as [Hop Hall]. simpl.
  destruct (IH (exec sha256 km op) Hall) as (-> & -> & ->).
  rewrite exec_frame by done. by destruct (exec_unused km op) as [-> ->].
Qed.

End TrustStoreMore.

(** ** Wire format *)

Section WireFacts.

Import Protocol Wire.

Lemma type_of_value_value t : type_of_value (type_value t) = Some t.
Proof. by destruct t. Qed.


Lemma new_well_formed uuid_hex now ty dat snd rcv mid ts sig :
  now ≠ 0 →
  well_formed (RiMayTikMessage_new uuid_hex now ty dat snd rcv mid ts sig).
Proof.
  intros Hnow. unfold well_formed, RiMayTikMessage_new. simpl. split.
  - destruct (truthy mid) eqn:E; done.
  - destruct (truthy_time ts) eqn:E; [done|]. simpl.
    by destruct (Z.eqb_spec now 0).
Qed.

Lemma new_id uuid_hex now m :
  well_formed m →
  RiMayTikMessage_new uuid_hex now (type m) (data m) (sender m)
    (receiver m) (message_id m) (timestamp m) (signature m) = m.
Proof.
  intros [Hid Hts]. unfold RiMayTikMessage_new. rewrite Hid, Hts.
  by destruct m.
Qed.

(** X13: parsing what [to_json] wrote gives back the message exactly
    when the message has a non-empty identifier and a non-zero time
    stamp; otherwise [__post_init__] fills them in anew. *)
Theorem from_json_to_json uuid_hex now m :
  now ≠ 0 →
  (from_json uuid_hex now (Some (LObject (to_json m))) = Ok m
   ↔ well_formed m).
Proof.
  intros Hnow. unfold from_json, to_json, lib, subscript.
  unfold mbind, Result_bind, bind.
  cbn [f_protocol f_type f_data f_sender f_receiver f_message_id
       f_timestamp f_signature].
  rewrite bool_decide_eq_true_2 by done. cbn [negb].
  rewrite type_of_value_value. split.
  - intros [= Heq]. rewrite <- Heq. by apply new_well_formed.
  - intros Hwf. f_equal. by apply new_id.
Qed.


End WireFacts.

(** ** Account store *)

Section AccountFacts.

Import Protocol Database Accounts Registration.

Context `{Libs} `{AuthLibs}.

Lemma has_username_elem d u :
  has_username d u = true ↔ u ∈ map u_username (rimaytik_users d).
Proof.
  unfold has_username. rewrite existsb_exists. split.
  - intros (r & Hin & Heq). apply String.eqb_eq in Heq. subst.
    apply list_elem_of_fmap. exists r. split; [done|].
    by apply list_elem_of_In.
  - intros (r & -> & Hin)%list_elem_of_fmap. exists r.
    split; [by apply list_elem_of_In|]. apply String.eqb_refl.
Qed.

Lemma find_app_new {A} (f : A → bool) l r :
  (∀ r', r' ∈ l → f r' = false) → f r = true →
  find f (l ++ [r]) = Some r.
Proof. intros Hall Hr. by rewrite find_snoc, Hr. Qed.

Lemma no_row_named d u r :
  has_username d u = false → r ∈ rimaytik_users d →
  String.eqb (u_username r) u = false.
Proof.
  intros Hno Hin. destruct (String.eqb_spec (u_username r) u) as [Heq|]; [|done].
  exfalso. apply not_true_iff_false in Hno. apply Hno.
  apply has_username_elem. rewrite <- Heq. apply list_elem_of_fmap. eauto.
Qed.

Lemma register_eq gensalt u dn k pw d :
  register_rimaytik_user gensalt u dn k pw d =
  match bcrypt_hashpw (encode pw) gensalt with
  | None => (d, Raise (LibraryError "bcrypt.hashpw"))
  | Some h =>
      if has_username d u then (d, Ok None)
      else
        let d1 := set_users (rimaytik_users d ++ [new_user_row d h u dn k])
                            (seq_users d + 1) d in
        if has_message_uuid d ("welcome_" +:+ pretty (seq_users d + 1)) then
          (d1, Ok None)
        else
          (set_messages_meta
             (rimaytik_messages_meta d ++ [welcome_row (seq_users d + 1)])
             d1,
           Ok (Some (seq_users d + 1)))
  end.
Proof.
  unfold register_rimaytik_user. monad_unfold.
  destruct (bcrypt_hashpw (encode pw) gensalt) as [h|]; [|done].
  destruct (has_username d u); [done|]. simpl.
  unfold has_message_uuid at 1. simpl.
  fold (has_message_uuid d ("welcome_" +:+ pretty (seq_users d + 1))).
  by destruct (has_message_uuid d _).
Qed.





(** X17: after a successful registration the user's public key, display
    name (the username when none or an empty one was given) and id are
    found by the lookup functions. *)
Theorem registered_user_lookups gensalt u dn k pw d d' id :
  register_rimaytik_user gensalt u dn k pw d = (d', Ok (Some id)) →
  get_rimaytik_public_key (Some u) d' = Some k
  ∧ get_rimaytik_display_name (Some u) d' = Some (or_else dn u)
  ∧ select_user_id d' (Some u) = Some id
  ∧ has_username d' u = true.
Proof.
  rewrite register_eq.
  destruct (bcrypt_hashpw (encode pw) gensalt) as [h|]; [|done].
  destruct (has_username d u) eqn:Hu; [done|].
  cbv zeta. destruct (has_message_uuid d _); [done|].
  intros [= <- <-].
  unfold get_rimaytik_public_key, get_rimaytik_display_name,
    select_user_id. simpl.
  rewrite !(find_app_new _ _ (new_user_row d h u dn k)).
  - split_and!; try done. apply has_username_elem. simpl.
    rewrite map_app. apply elem_of_app. right. by left.
  - intros r Hr. by apply (no_row_named d u).
  - simpl. apply String.eqb_refl.
  - intros r Hr. simpl. by apply (no_row_named d u).
  - simpl. apply String.eqb_refl.
  - intros r Hr. simpl. by rewrite (no_row_named d u r Hu Hr).
  - simpl. by rewrite String.eqb_refl.
Qed.

(** X18: a user who has just registered can authenticate with the same
    password, given that [bcrypt.checkpw] accepts the hash
    [bcrypt.hashpw] made; the id is the one registration returned, and
    the public key stays available. *)
Theorem authenticate_after_register gensalt u dn k pw d d' id now :
  register_rimaytik_user gensalt u dn k pw d = (d', Ok (Some id)) →
  (∀ h, bcrypt_hashpw (encode pw) gensalt = Some h →
        bcrypt_checkpw (encode pw) (encode h) = true) →
  ∃ d'',
    authenticate_rimaytik_user now (Some u) (Some pw) d'
    = (d'', Ok (Some id))
    ∧ get_rimaytik_public_key (Some u) d'' = Some k.
Proof.
  rewrite register_eq.
  destruct (bcrypt_hashpw (encode pw) gensalt) as [h|]; [|done].
  destruct (has_username d u) eqn:Hu; [done|].
  cbv zeta. destruct (has_message_uuid d _); [done|].
  intros [= <- <-] Hck. specialize (Hck h eq_refl).
  unfold authenticate_rimaytik_user. monad_unfold. simpl.
  rewrite (find_app_new _ _ (new_user_row d h u dn k)).
  2:{ intros r Hr. simpl. by rewrite (no_row_named d u r Hu Hr). }
  2:{ simpl. by rewrite String.eqb_refl. }
  simpl. rewrite Hck. eexists. split; [reflexivity|].
  unfold get_rimaytik_public_key, update_user. simpl.
  rewrite map_app. simpl. rewrite Z.eqb_refl.
  rewrite (find_app_new _ _ (with_login now (new_user_row d h u dn k))).
  - done.
  - intros r (r0 & -> & Hr0)%list_elem_of_fmap. simpl.
    destruct (u_id r0 =? seq_users d + 1); simpl;
      by rewrite (no_row_named d u r0 Hu Hr0).
  - simpl. by rewrite String.eqb_refl.
Qed.

(** X19: [authenticate_rimaytik_user] returns an id only for a stored
    user with that name who is not banned and whose password hash
    matches; in every other outcome the database is unchanged. *)
Theorem authenticate_sound now username password d :
  let '(d', r) := authenticate_rimaytik_user now username password d in
  match r with
  | Ok (Some id) =>
      ∃ u pw row,
        username = Some u ∧ password = Some pw
        ∧ row ∈ rimaytik_users d
        ∧ u_username row = u
        ∧ u_status row ≠ "banned"
        ∧ bcrypt_checkpw (encode pw) (encode (u_password_hash row)) = true
        ∧ u_id row = id
  | _ => d' = d
  end.
Proof.
  unfold authenticate_rimaytik_user. monad_unfold. simpl.
  destruct (find _ (rimaytik_users d)) as [row|] eqn:Hf; simpl; [|done].
  destruct password as [pw|]; simpl; [|done].
  destruct (bcrypt_checkpw _ _) eqn:Hck; simpl; [|done].
  apply find_some in Hf as [Hin Hsel].
  apply andb_true_iff in Hsel as [Hu Hb].
  destruct username as [u|]; [|done]. simpl in Hu.
  apply String.eqb_eq in Hu. apply negb_true_iff in Hb.
  exists u, pw, row. split_and!; try done.
  - by apply list_elem_of_In.
  - intros Heq. rewrite Heq in Hb. simpl in Hb. done.
Qed.

(** X20: with unique tokens, [create_rimaytik_session] on a token in use
    raises and changes nothing; on a fresh token it keeps tokens unique,
    and the token then validates to the given user at a UTC second
    exactly while that second, in microseconds, is below the stored
    expiry, which is the local time of issue plus the hours; the
    validation of every other token is unaffected. *)
Theorem issue_then_validate now local_now uid t dev ip hours d :
  unique_tokens d →
  let '(d', r) :=
    create_rimaytik_session now local_now uid t dev ip hours d in
  if has_token d t then
    d' = d
    ∧ r = Raise (IntegrityError "rimaytik_security_sessions.session_token")
  else
    r = Ok t
    ∧ unique_tokens d'
    ∧ (∀ utc, validate_rimaytik_session utc t d'
              = if utc * 1000000 <? local_now + hours * 3600 * 1000000
                then Some uid else None)
    ∧ (∀ utc t', t' ≠ t →
         validate_rimaytik_session utc t' d'
         = validate_rimaytik_session utc t' d).
Proof.
  intros Hu.
  pose proof (validate_after_create now local_now uid t dev ip hours d)
    as Hv.
  pose proof (unique_after_create now local_now uid t dev ip hours d Hu)
    as Hu'.
  rewrite create_session_eq in *.
  destruct (has_token d t) eqn:Ht; [done|]. simpl in *.
  split; [done|]. split; [by apply Hu'|]. split.
  - intros utc. by apply Hv.
  - intros utc t' Hne. unfold validate_rimaytik_session. simpl.
    rewrite find_snoc_false; [done|].
    unfold session_matches. simpl.
    destruct (String.eqb_spec t t'); [congruence|done].
Qed.




Lemma listed_username_iff now d u :
  order_is_permutation →
  Some (JStr u) ∈ listed_usernames (get_rimaytik_online_users now d)
  ↔ ∃ r t, r ∈ rimaytik_users d ∧ u_username r = u
           ∧ u_status r = "online"
           ∧ u_last_seen r = Some t ∧ now - 300 < t.
Proof.
  intros Hperm. unfold order_is_permutation in Hperm.
  unfold listed_usernames, get_rimaytik_online_users.
  rewrite map_map. simpl. rewrite list_elem_of_fmap.
  split.
  - intros (r & [= ->] & Hr). rewrite Hperm in Hr.
    apply list_elem_of_In, filter_In in Hr as [Hin Hsel].
    apply andb_true_iff in Hsel as [Hs Hl].
    apply String.eqb_eq in Hs.
    destruct (u_last_seen r) as [t|] eqn:Ht; [|done].
    apply Z.ltb_lt in Hl. exists r, t. split_and!; try done.
    by apply list_elem_of_In.
  - intros (r & t & Hin & <- & Hs & Ht & Hl). exists r. split; [done|].
    rewrite Hperm. apply list_elem_of_In, filter_In.
    split; [by apply list_elem_of_In|].
    rewrite Hs, Ht. simpl. by apply Z.ltb_lt.
Qed.

(** X22: a user who has just registered does not appear in
    [get_rimaytik_online_users], at any time: registration leaves
    [last_seen] empty, and the list requires a recent one. *)
Theorem new_user_not_listed gensalt u dn k pw d d' id now :
  order_is_permutation →
  register_rimaytik_user gensalt u dn k pw d = (d', Ok (Some id)) →
  Some (JStr u) ∉ listed_usernames (get_rimaytik_online_users now d').
Proof.
  intros Hperm. rewrite register_eq.
  destruct (bcrypt_hashpw (encode pw) gensalt) as [h|]; [|done].
  destruct (has_username d u) eqn:Hu; [done|].
  cbv zeta. destruct (has_message_uuid d _); [done|].
  intros [= <- <-]. rewrite (listed_username_iff _ _ _ Hperm). simpl.
  intros (r & t & Hin & Hname & _ & Hseen & _).
  apply elem_of_app in Hin as [Hin|Hin].
  - pose proof (no_row_named d u r Hu Hin) as Hne.
    rewrite Hname, String.eqb_refl in Hne. done.
  - apply list_elem_of_singleton in Hin. subst r. done.
Qed.

End AccountFacts.

(** ** Relay: registry, login, other message kinds *)

Section RelayFacts.

Import Protocol Database Accounts Registration Server Relay Presence.

Context `{Libs} `{AuthLibs} `{RelayLibs}.

Lemma keeps_bind {A B} P (m : M World A) (f : A → M World B) :
  keeps P m → (∀ a, keeps P (f a)) → keeps P (m ≫= f).
Proof.
  intros Hm Hf w Hw. unfold mbind, M_bind, mbind_M.
  specialize (Hm w Hw). destruct (m w) as [w1 [a|e]]; simpl in *.
  - by apply Hf.
  - done.
Qed.

Lemma keeps_ret {A} P (a : A) : keeps P (mret a).
Proof. by intros w Hw. Qed.

Lemma keeps_raise {A} P e : keeps P (raise e : M World A).
Proof. by intros w Hw. Qed.

Lemma keeps_liftR {A} P (r : Result A) : keeps P (liftR r).
Proof. by intros w Hw. Qed.

Lemma keeps_get_server P : keeps P get_server.
Proof. by intros w Hw. Qed.

Lemma keeps_getattr P name : keeps P (getattr name).
Proof. intros w Hw. unfold getattr. by case_bool_decide. Qed.

Lemma keeps_self_db {A} (m : M RiMayTikDatabase A) :
  keeps (on_registry registry_consistent) (self_db m).
Proof.
  intros w Hw. unfold self_db, zoom, on_registry in *.
  by destruct (m (db (server w))) as [d' r].
Qed.

Lemma write_eq env wr fr w :
  write env wr fr w
  = ({| server := server w; wire := write_wire wr fr (wire w) |},
     if connection_lost env wr then Raise ConnectionResetError else Ok tt).
Proof.
  unfold write. monad_unfold. by destruct (connection_lost env wr).
Qed.

Lemma keeps_write env wr fr :
  keeps (on_registry registry_consistent) (write env wr fr).
Proof. intros w Hw. by rewrite write_eq. Qed.

Lemma writes_eq env (l : list (string * (nat * string * string))) msg w :
  foldr (fun entry rest =>
           _ ← try_except (write env entry.2.1.1 msg) (fun _ => mret tt);
           rest)
        (mret tt) l w
  = ({| server := server w;
        wire := fold_left (fun wi entry => write_wire entry.2.1.1 msg wi)
                          l (wire w) |}, Ok tt).
Proof.
  revert w. induction l as [|e l IH]; intros w; simpl.
  - by destruct w.
  - unfold mbind at 1, M_bind, mbind_M, try_except. rewrite write_eq.
    destruct (connection_lost env e.2.1.1); simpl; by rewrite IH.
Qed.

Lemma broadcast_eq env k w :
  broadcast_rimaytik_online_users env k w
  = ({| server := server w;
        wire := fold_left
                  (fun wi entry =>
                     write_wire entry.2.1.1
                                (online_update env k (db (server w))) wi)
                  (map_to_list (clients (server w))) (wire w) |}, Ok tt).
Proof.
  unfold broadcast_rimaytik_online_users, get_server.
  unfold mbind at 1 2, M_bind, mbind_M, get. simpl.
  apply writes_eq.
Qed.

Lemma keeps_broadcast env k :
  keeps (on_registry registry_consistent)
        (broadcast_rimaytik_online_users env k).
Proof. intros w Hw. by rewrite broadcast_eq. Qed.

Lemma keeps_connect_then {A} u e (k : M World A) :
  keeps (on_registry registry_consistent) k →
  keeps (on_registry registry_consistent)
    (s ← get_server;
     _ ← modify_server (set_clients (<[u := e]> (clients s)));
     _ ← modify_server
           (fun s => set_online_users ({[u]} ∪ online_users s) s);
     k).
Proof.
  intros Hk w Hw. unfold get_server, modify_server. monad_unfold. simpl.
  apply Hk. unfold on_registry, registry_consistent in *. simpl.
  rewrite dom_insert_L. by rewrite Hw.
Qed.

Lemma keeps_connect u wr k t :
  keeps (on_registry registry_consistent) (connect u wr k t).
Proof.
  intros w Hw. unfold connect, get_server, modify_server. monad_unfold.
  simpl. unfold on_registry, registry_consistent in *. simpl.
  rewrite dom_insert_L. by rewrite Hw.
Qed.

Ltac keeps_step :=
  first
    [ apply keeps_ret | apply keeps_raise | apply keeps_liftR
    | apply keeps_get_server | apply keeps_getattr | apply keeps_self_db
    | apply keeps_write | apply keeps_broadcast | apply keeps_connect
    | apply keeps_connect_then
    | apply keeps_bind; [|intros ?]
    | match goal with
      | |- keeps _ (if ?c then _ else _) => destruct c
      | |- keeps _ (match ?x with _ => _ end) => destruct x
      end ].

Lemma keeps_register env dat wr ip :
  keeps (on_registry registry_consistent)
        (handle_rimaytik_register env dat wr ip).
Proof. unfold handle_rimaytik_register. repeat keeps_step. Qed.

Lemma keeps_direct_message env msg :
  keeps (on_registry registry_consistent)
        (handle_rimaytik_direct_message env msg).
Proof. unfold handle_rimaytik_direct_message. repeat keeps_step. Qed.

Lemma keeps_user_logout env u :
  keeps (on_registry registry_consistent) (handle_user_logout env u).
Proof.
  intros w Hw. unfold handle_user_logout, get_server, modify_server.
  monad_unfold. simpl.
  destruct u as [u|]; [|done]. case_bool_decide; [|done]. simpl.
  unfold on_registry, registry_consistent in *. simpl.
  rewrite dom_delete_L. by rewrite Hw.
Qed.

Lemma keeps_logout env u :
  keeps (on_registry registry_consistent) (handle_rimaytik_logout env u).
Proof.
  unfold handle_rimaytik_logout. apply keeps_bind; [|intros; keeps_step].
  apply keeps_user_logout.
Qed.

Lemma keeps_login env dat wr ip :
  keeps (on_registry registry_consistent)
        (handle_rimaytik_login env dat wr ip).
Proof.
  unfold handle_rimaytik_login, restore_session. repeat keeps_step.
Qed.

Lemma keeps_key_exchange env msg :
  keeps (on_registry registry_consistent)
        (handle_rimaytik_key_exchange env msg).
Proof. unfold handle_rimaytik_key_exchange. repeat keeps_step. Qed.

Lemma keeps_contact_request env msg :
  keeps (on_registry registry_consistent)
        (handle_rimaytik_contact_request env msg).
Proof. unfold handle_rimaytik_contact_request. repeat keeps_step. Qed.

Lemma keeps_online_users env u :
  keeps (on_registry registry_consistent)
        (handle_rimaytik_online_users env u).
Proof. unfold handle_rimaytik_online_users. repeat keeps_step. Qed.

(** X23: whatever messages the server processes, and whatever each
    handler returns or raises, the names in [clients] and the set
    [online_users] stay the same set. *)
Theorem registry_stays_consistent arrivals w :
  registry_consistent (server w) →
  registry_consistent (server (process_all arrivals w)).
Proof.
  revert w. induction arrivals as [|a arrivals IH]; intros w Hw; [done|].
  simpl. apply IH.
  assert (Hk : keeps (on_registry registry_consistent)
                 (process_rimaytik_message (a_env a) (a_request a)
                    (a_writer a) (a_client_ip a))).
  { unfold process_rimaytik_message, replying.
    destruct (a_request a); try (apply keeps_bind; [|intros; apply keeps_ret]).
    - apply keeps_register.
    - apply keeps_login.
    - apply keeps_key_exchange.
    - apply keeps_direct_message.
    - apply keeps_online_users.
    - apply keeps_contact_request.
    - apply keeps_logout.
    - apply keeps_ret. }
  exact (Hk w Hw).
Qed.

Lemma fold_writes_lookup msg wr (l : list (string * (nat * string * string))) wi :
  fold_left (fun wi entry => write_wire entry.2.1.1 msg wi) l wi !! wr
  = let n := length (List.filter
                       (fun e : string * (nat * string * string) =>
                          Nat.eqb e.2.1.1 wr) l) in
    if Nat.eqb n 0 then wi !! wr
    else Some (default [] (wi !! wr) ++ replicate n msg).
Proof.
  revert wi. induction l as [|e l IH]; intros wi; [done|].
  simpl. rewrite IH. unfold write_wire.
  destruct (Nat.eqb_spec e.2.1.1 wr) as [->|Hne].
  - rewrite lookup_insert_eq. simpl.
    destruct (length _) as [|n]; simpl.
    + done.
    + by rewrite <- app_assoc.
  - by rewrite lookup_insert_ne.
Qed.

(** X24: [broadcast_rimaytik_online_users] does not change the server;
    each transport receives one copy of the update for every entry of
    [clients] that holds it, and a transport that holds none receives
    nothing. *)
Theorem broadcast_frames env k w wr :
  ∃ w',
    broadcast_rimaytik_online_users env k w = (w', Ok tt)
    ∧ server w' = server w
    ∧ wire w' !! wr
      = if Nat.eqb (entries_on wr (clients (server w))) 0 then wire w !! wr
        else Some (default [] (wire w !! wr)
                   ++ replicate (entries_on wr (clients (server w)))
                                (online_update env k (db (server w)))).
Proof.
  rewrite broadcast_eq. eexists. split; [reflexivity|]. split; [done|].
  simpl. by rewrite fold_writes_lookup.
Qed.



(** X27: a login that presents the token of a live session does not
    restore it: the handler reads [self.cursor], which the server does
    not have, and raises [AttributeError] with nothing changed. *)
Theorem login_with_valid_token_raises env dat wr ip w token uid :
  log_session_token dat = Some token → token ≠ "" →
  validate_rimaytik_session (now env) token (db (server w)) = Some uid →
  uid ≠ 0 →
  handle_rimaytik_login env dat wr ip w
  = (w, Raise (AttributeError "RiMayTikServer" "cursor")).
Proof.
  intros Ht Hne Hv Hu. unfold handle_rimaytik_login, restore_session.
  rewrite Ht. destruct (String.eqb_spec token ""); [done|]. simpl.
  unfold get_server. monad_unfold. simpl. rewrite Hv. simpl.
  destruct (Z.eqb_spec uid 0); [done|]. simpl. by destruct w.
Qed.










End RelayFacts.

(** ** Further runs on concrete inputs *)

Lemma run_returns {S A} (m : S * Result A) a : m.2 = Ok a → m = (m.1, Ok a).
Proof. destruct m as [s r]. simpl. by intros ->. Defined.

Lemma run_raises {S A} (m : S * Result A) e :
  m.2 = Raise e → m = (m.1, Raise e).
Proof. destruct m as [s r]. simpl. by intros ->. Defined.

(** Alice encrypts for Bob, Bob derives the shared secret and tries to
    decrypt, twice: Bob's engine has no ratchet state for anyone. *)
Lemma ratchet_never_runs_witness :
  Engine.session_keys
    (Engine.self
       (EngineKeys.call_all
          [EngineKeys.DeriveSharedSecret Toy.alice_identity_pem;
           EngineKeys.DecryptMessage Toy.hello Toy.alice_identity_pem;
           EngineKeys.DecryptMessage Toy.hello Toy.alice_identity_pem]
          Toy.bob))
  !! Toy.alice_identity_pem
  = None.
Proof.
  exact (proj1 (proj2 (ratchet_never_runs
                         [EngineKeys.DeriveSharedSecret
                            Toy.alice_identity_pem;
                          EngineKeys.DecryptMessage Toy.hello
                            Toy.alice_identity_pem;
                          EngineKeys.DecryptMessage Toy.hello
                            Toy.alice_identity_pem]
                         Toy.bob
                         toy_blake2b_digest_size toy_gcm_tag_at_most_16))
           eq_refl Toy.alice_identity_pem).
Defined.


Lemma sign_then_verify_witness :
  let signed := (Engine.sign_data Toy.alice_entropy (encode "hi")
                   Toy.alice).1 in
  Engine.verify_signature (encode "hi")
    (Engine.b64encode
       (Engine.rsa_sign_pss (7 : @Engine.RSAPrivateKey Toy.toy_crypto)
          (encode "hi")))
    Toy.alice_identity_pem signed
  = (Engine.add_calls signed [Engine.CallVerify (encode "hi") true],
     Ok true).
Proof.
  intros signed.
  refine (proj2 (sign_then_verify Toy.alice_entropy (encode "hi") Toy.alice
                   signed _ 7 (Toy.RSAPub 7) _ _ _)).
  - apply (run_returns (Engine.sign_data Toy.alice_entropy (encode "hi")
                          Toy.alice)).
    vm_compute. reflexivity.
  - vm_compute. reflexivity.
  - split_and!; vm_compute; reflexivity.
Defined.

Lemma decrypt_needs_ephemeral_keys_witness :
  ∃ cause,
    Engine.decrypt_message Toy.hello Toy.alice_identity_pem Toy.alice
    = (Toy.alice,
       Raise (ValueErrorFrom Engine.decrypt_error_prefix cause)).
Proof.
  eexists.
  exact (decrypt_needs_ephemeral_keys Toy.hello Toy.alice_identity_pem
           Toy.alice eq_refl).
Defined.

Lemma failed_decrypt_keeps_engine_witness :
  Engine.self
    (Engine.decrypt_message Toy.hello Toy.alice_identity_pem Toy.bob).1
  = Engine.self Toy.bob.
Proof.
  apply (failed_decrypt_keeps_engine Toy.hello Toy.alice_identity_pem
           Toy.bob _ Engine.IntegrityFailure).
  - apply (run_raises (Engine.decrypt_message Toy.hello
                         Toy.alice_identity_pem Toy.bob)).
    vm_compute. reflexivity.
  - discriminate.
Defined.

Lemma ratchet_counts_and_ignores_later_secrets_witness :
  Engine.message_number
    <$> Engine.session_keys
          (Engine.self
             (EngineKeys.ratchet_all "bob"
                [encode "s0"; encode "s1"; encode "s2"] Toy.alice))
        !! "bob"
  = Some 2.
Proof.
  exact (proj1 (ratchet_counts_and_ignores_later_secrets "bob"
                  (encode "s0") [encode "s1"; encode "s2"]
                  [encode "t1"; encode "t2"] Toy.alice
                  eq_refl eq_refl)).
Defined.

Lemma export_then_import_witness :
  ∃ w2,
    EngineKeys.import_keys
      (Some (EngineKeys.parse_exported
               (EngineKeys.mkKeysData
                  (default ""
                     (EngineKeys.private_bytes_pkcs8
                        (7 : @Engine.RSAPrivateKey Toy.toy_crypto)
                        (encode "secret")))
                  Toy.alice_identity_pem 2 99 "RiMayTik Messenger")))
      "secret" Toy.bob
    = (w2, Ok tt)
    ∧ Engine.identity_keys (Engine.self w2) = Some (7, Toy.RSAPub 7).
Proof.
  destruct (export_then_import Toy.alice_entropy 99 "secret"
              Sample.alice_with_keys
              (EngineKeys.export_keys Toy.alice_entropy 99 "secret"
                 Sample.alice_with_keys).1
              (EngineKeys.mkKeysData
                 (default ""
                    (EngineKeys.private_bytes_pkcs8
                       (7 : @Engine.RSAPrivateKey Toy.toy_crypto)
                       (encode "secret")))
                 Toy.alice_identity_pem 2 99 "RiMayTik Messenger")
              7 (Toy.RSAPub 7) "secret" Toy.bob)
    as (_ & _ & w2 & Hi & Hk & _).
  - apply run_returns. vm_compute. reflexivity.
  - vm_compute. reflexivity.
  - vm_compute. reflexivity.
  - exists w2. split; [exact Hi|exact Hk].
Defined.

Lemma fingerprint_format_witness :
  String.length
    (KeyManager.calculate_fingerprint Sample.toy_sha256 "PEM-alice")
  = 47%nat.
Proof.
  exact (proj1 (fingerprint_format Sample.toy_sha256 "PEM-alice"
                  ltac:(vm_compute; lia))).
Defined.

Lemma other_users_untouched_witness :
  KeyManager.trusted_keys
    (KeyManager.run Sample.toy_sha256 KeyManager.init
       [KeyManager.OpAdd 5 "bob" "PEM-bob" None;
        KeyManager.OpVerify "bob" "00:11"])
    !! "alice"
  = KeyManager.trusted_keys KeyManager.init !! "alice".
Proof.
  apply (other_users_untouched Sample.toy_sha256 KeyManager.init
           [KeyManager.OpAdd 5 "bob" "PEM-bob" None;
            KeyManager.OpVerify "bob" "00:11"] "alice").
  repeat constructor; discriminate.
Defined.

Lemma from_json_to_json_witness :
  Wire.from_json "0badcafe" 1700000009
    (Some (Wire.LObject (Wire.to_json (Toy.direct_message "bob"))))
  = Ok (Toy.direct_message "bob")
  ↔ Wire.well_formed (Toy.direct_message "bob").
Proof.
  exact (from_json_to_json "0badcafe" 1700000009 (Toy.direct_message "bob")
           ltac:(lia)).
Defined.





Lemma registered_user_lookups_witness :
  Accounts.get_rimaytik_display_name (Some "alice")
    (Database.register_rimaytik_user [x01; x02] "alice" (Some "")
       "PEM-alice" "correct horse" Database.empty).1
  = Some "alice".
Proof.
  refine (proj1 (proj2 (registered_user_lookups [x01; x02] "alice"
                          (Some "") "PEM-alice" "correct horse"
                          Database.empty _ 1 _))).
  apply run_returns. vm_compute. reflexivity.
Defined.

Lemma authenticate_after_register_witness :
  ∃ d'',
    Accounts.authenticate_rimaytik_user 1700000100 (Some "alice")
      (Some "correct horse")
      (Database.register_rimaytik_user [x01; x02] "alice" None
         "PEM-alice" "correct horse" Database.empty).1
    = (d'', Ok (Some 1)).
Proof.
  destruct (authenticate_after_register [x01; x02] "alice" None
              "PEM-alice" "correct horse" Database.empty
              (Database.register_rimaytik_user [x01; x02] "alice" None
                 "PEM-alice" "correct horse" Database.empty).1
              1 1700000100)
    as (d'' & Hrun & _).
  - apply run_returns. vm_compute. reflexivity.
  - intros h Hh. vm_compute in Hh. injection Hh as <-.
    vm_compute. reflexivity.
  - exists d''. exact Hrun.
Defined.

Lemma issue_then_validate_witness :
  Database.validate_rimaytik_session 5000 "tok-new"
    (Database.create_rimaytik_session 1000 1000250000 4 "tok-new" "dev"
       "ip" 24 Toy.sample_sessions).1
  = Some 4.
Proof.
  assert (Hu : Database.unique_tokens Toy.sample_sessions).
  { unfold Database.unique_tokens. simpl.
    by apply (bool_decide_unpack _); vm_compute. }
  pose proof (issue_then_validate 1000 1000250000 4 "tok-new" "dev" "ip"
                24 Toy.sample_sessions Hu) as Hout.
  destruct (Database.create_rimaytik_session _ _ _ _ _ _ _ _) as [d' r].
  change (Database.has_token Toy.sample_sessions "tok-new") with false
    in Hout.
  destruct Hout as (_ & _ & Hv & _). exact (Hv 5000).
Defined.


Lemma new_user_not_listed_witness :
  Some (Protocol.JStr "alice")
  ∉ Accounts.listed_usernames
      (Database.get_rimaytik_online_users 1700000001
         (Database.register_rimaytik_user [x01; x02] "alice" None
            "PEM-alice" "correct horse" Database.empty).1).
Proof.
  apply (new_user_not_listed [x01; x02] "alice" None "PEM-alice"
           "correct horse" Database.empty _ 1 1700000001).
  - intros l. reflexivity.
  - apply run_returns. vm_compute. reflexivity.
Defined.

Lemma registry_stays_consistent_witness :
  Relay.registry_consistent
    (Server.server (Relay.process_all Sample.morning Toy.world0)).
Proof.
  apply (registry_stays_consistent Sample.morning Toy.world0).
  apply dom_empty_L.
Defined.


Lemma login_with_valid_token_raises_witness :
  Relay.handle_rimaytik_login Sample.later_env
    (Sample.token_request "138") 3%nat "10.0.0.3" Toy.world2
  = (Toy.world2, Raise (AttributeError "RiMayTikServer" "cursor")).
Proof.
  apply (login_with_valid_token_raises Sample.later_env
           (Sample.token_request "138") 3%nat "10.0.0.3" Toy.world2
           "138" 1).
  - reflexivity.
  - discriminate.
  - vm_compute. reflexivity.
  - discriminate.
Defined.




